(** * IVoice: translation dispatch, quota ledger, history and offline fallback

    A shallow embedding of [src/App.tsx] (the dispatcher, the usage ledger
    and the history store) and of [src/geminiService.ts] (the offline
    dictionary resolver, the error classifier and the cloud calls), followed
    by the properties of the specification that concern them. *)

From Stdlib Require Import List String Ascii NArith ZArith Bool Lia FinFun.
Import ListNotations.
Local Open Scope string_scope.
Local Open Scope list_scope.

Set Implicit Arguments.

(** ** JavaScript strings

    A JavaScript string is a sequence of UTF-16 code units.  String literals
    of the sources are written as Rocq literals (UTF-8) and decoded by
    [utf16]. *)
Module JSString.

Definition jsstring := list N.

(** Decoder from the UTF-8 bytes of a literal to UTF-16 code units. *)
Fixpoint utf16 (s : string) : jsstring :=
  match s with
  | EmptyString => []
  | String a r =>
    let n := N_of_ascii a in
    if (n <? 128)%N then n :: utf16 r
    else if (n <? 224)%N then
      match r with
      | String b r1 =>
        N.lor (N.shiftl (N.land n 31) 6) (N.land (N_of_ascii b) 63) :: utf16 r1
      | EmptyString => [n]
      end
    else if (n <? 240)%N then
      match r with
      | String b (String c r2) =>
        N.lor (N.shiftl (N.land n 15) 12)
              (N.lor (N.shiftl (N.land (N_of_ascii b) 63) 6)
                     (N.land (N_of_ascii c) 63)) :: utf16 r2
      | _ => [n]
      end
    else
      match r with
      | String b (String c (String d r3)) =>
        let cp := N.lor (N.shiftl (N.land n 7) 18)
                 (N.lor (N.shiftl (N.land (N_of_ascii b) 63) 12)
                 (N.lor (N.shiftl (N.land (N_of_ascii c) 63) 6)
                        (N.land (N_of_ascii d) 63))) in
        let v := (cp - 65536)%N in
        (55296 + N.shiftr v 10)%N :: (56320 + N.land v 1023)%N :: utf16 r3
      | _ => [n]
      end
  end.

(** [a === b] on strings. *)
Fixpoint eqb (a b : jsstring) : bool :=
  match a, b with
  | [], [] => true
  | x :: a', y :: b' => (x =? y)%N && eqb a' b'
  | _, _ => false
  end.

(** A string is falsy exactly when it is empty. *)
Definition truthy (s : jsstring) : bool :=
  match s with [] => false | _ :: _ => true end.

Fixpoint startsWith (s k : jsstring) : bool :=
  match k, s with
  | [], _ => true
  | y :: k', x :: s' => (x =? y)%N && startsWith s' k'
  | _ :: _, [] => false
  end.

(** [s.includes(k)]: [k] occurs in [s] at some position. *)
Fixpoint includes (s k : jsstring) : bool :=
  startsWith s k ||
  match s with
  | [] => false
  | _ :: s' => includes s' k
  end.

(** WhiteSpace and LineTerminator code points of ECMAScript, the ones
    [String.prototype.trim] removes. *)
Definition isWhiteSpace (c : N) : bool :=
  ((9 <=? c) && (c <=? 13) || (c =? 32) || (c =? 160) || (c =? 5760)
   || (8192 <=? c) && (c <=? 8202) || (c =? 8232) || (c =? 8233)
   || (c =? 8239) || (c =? 8287) || (c =? 12288) || (c =? 65279))%N.

Fixpoint trimStart (s : jsstring) : jsstring :=
  match s with
  | c :: s' => if isWhiteSpace c then trimStart s' else s
  | [] => []
  end.

Definition trimEnd (s : jsstring) : jsstring := rev (trimStart (rev s)).

Definition trim (s : jsstring) : jsstring := trimEnd (trimStart s).

(** [s.replace(/[?.!]/g, "")]: every occurrence of one of the three marks
    is removed. *)
Definition isTerminalMark (c : N) : bool :=
  ((c =? 63) || (c =? 46) || (c =? 33))%N.

Definition replace_marks (s : jsstring) : jsstring :=
  filter (fun c => negb (isTerminalMark c)) s.

(** ASCII case mapping; [String.prototype.toLowerCase] agrees with it on
    strings made of ASCII code units. *)
Definition isAscii (s : jsstring) : bool := forallb (fun c => (c <? 128)%N) s.

Definition ascii_lower (c : N) : N :=
  if ((65 <=? c) && (c <=? 90))%N then (c + 32)%N else c.

Definition ascii_toLowerCase (s : jsstring) : jsstring := map ascii_lower s.

End JSString.

Import JSString.


(** ** Data model ([types.ts]) *)

Record TranslationResult := mkResult {
  original_text : jsstring;
  detected_language : jsstring;
  translated_text : jsstring;
  phonetic : option jsstring
}.

Inductive SupportedLanguageCode :=
  | Code_en | Code_id | Code_zh | Code_es | Code_ko | Code_ja | Code_nl | Code_ar.

(** The string a language code is at run time. *)
Definition code_str (c : SupportedLanguageCode) : jsstring :=
  match c with
  | Code_en => utf16 "en" | Code_id => utf16 "id" | Code_zh => utf16 "zh"
  | Code_es => utf16 "es" | Code_ko => utf16 "ko" | Code_ja => utf16 "ja"
  | Code_nl => utf16 "nl" | Code_ar => utf16 "ar"
  end.

Definition code_eqb (a b : SupportedLanguageCode) : bool :=
  match a, b with
  | Code_en, Code_en | Code_id, Code_id | Code_zh, Code_zh | Code_es, Code_es
  | Code_ko, Code_ko | Code_ja, Code_ja | Code_nl, Code_nl | Code_ar, Code_ar => true
  | _, _ => false
  end.

Record LanguageOption := mkLanguage {
  code : SupportedLanguageCode;
  name : jsstring;
  nativeName : jsstring;
  ttsLocale : jsstring;
  flag : jsstring
}.

Record User := mkUser {
  email : jsstring;
  user_name : jsstring;
  isPremium : option bool;
  downloadedLanguages : option (list SupportedLanguageCode)
}.

(** [HistoryItem extends TranslationResult]: the result's fields are kept
    together in [item_result]. *)
Record HistoryItem := mkItem {
  item_result : TranslationResult;
  id : jsstring;
  timestamp : Z;
  targetLangName : jsstring;
  targetLangLocale : jsstring;
  targetLangFlag : jsstring
}.

(** A thrown value.  [err_message] is its [message] property when it has
    one; [err_detail] stands for whatever else tells two thrown values
    apart. *)
Record JSError := mkError {
  err_message : option jsstring;
  err_detail : N
}.

(** [new Error(m)]. *)
Definition new_Error (m : jsstring) : JSError := mkError (Some m) 0.

(** How the evaluation of an expression or a block ends. *)
Inductive Completion (A : Type) :=
  | Normal (a : A)
  | Throw (e : JSError).
Arguments Throw {A} e.

(** [x || d] on a possibly undefined string. *)
Definition or_default (x : option jsstring) (d : jsstring) : jsstring :=
  match x with
  | Some s => if truthy s then s else d
  | None => d
  end.

(** Own-property lookup in an object literal, in the order of the literal. *)
Fixpoint lookup {V : Type} (k : jsstring) (o : list (jsstring * V)) : option V :=
  match o with
  | [] => None
  | (k', v) :: o' => if eqb k k' then Some v else lookup k o'
  end.

(** [Object.keys]: for keys that are not array indices, insertion order. *)
Definition keys {V : Type} (o : list (jsstring * V)) : list jsstring := map fst o.

(** ** The cloud capability and the rest of the environment

    What a request reads from outside the program: the clock, the
    connectivity flag of the browser, the identifier generator and the
    outcome of the calls to the generative model. *)

Record Blob := mkBlob {
  blob_data : list N;
  blob_type : jsstring
}.

(** The parts of a [generateContent] request that vary between calls; the
    model name and [GENERATION_CONFIG] are the same in all of them. *)
Inductive CloudRequest :=
  | AudioRequest (mimeType data : jsstring) (langList : list jsstring)
                 (motherLanguageName targetLanguageName : jsstring)
  | TextRequest (inputText motherLanguageName targetLanguageName : jsstring)
  | ImageRequest (mimeType data motherLanguageName targetLanguageName : jsstring).

(** One value of each per request: a request reads the day at most twice,
    in [checkUsageLimit] and in [incrementUsage], and makes at most one call
    to the model. *)
Record Env := mkEnv {
  today : jsstring;                (* new Date().toISOString().split('T')[0] *)
  navigator_onLine : bool;         (* navigator.onLine *)
  randomUUID : jsstring;           (* crypto.randomUUID() *)
  now : Z;                         (* Date.now() *)
  generateContent : CloudRequest -> Completion (option jsstring);  (* response.text *)
  JSON_parse : jsstring -> Completion TranslationResult;
  blobToBase64 : Blob -> Completion jsstring
}.

(** ** Application state ([App.tsx]) *)

Inductive TranslationMode :=
  | voice_to_voice | voice_to_text | text_to_text | image_to_text | offline_settings.

(** The React state of [App] that the dispatcher reads or writes. *)
Record AppState := mkApp {
  user : option User;
  showPremiumModal : bool;
  history : list HistoryItem;
  mode : TranslationMode;
  motherLangCode : SupportedLanguageCode;
  targetLangCode : SupportedLanguageCode;
  isLoading : bool;
  translationResult : option TranslationResult;
  error : option jsstring;
  isOnline : bool
}.

(** The usage ledger kept under the key [gv_usage].  The count is the
    integer the stored number denotes; [usage.count += 1] is this integer
    plus one for the counts below 2^53 in absolute value (see
    [safe_count]). *)
Record Usage := mkUsage {
  date : jsstring;
  count : Z
}.

(** [localStorage], restricted to the two keys of the program.  Both hold
    JSON text written by [JSON.stringify] and read back by [JSON.parse];
    the store keeps the value the text denotes, [None] for an absent key. *)
Record Storage := mkStorage {
  gv_usage : option Usage;
  gv_history : option (list HistoryItem)
}.

(** The steps of a request that the properties speak about, in the order
    in which they happen: the quota check, the writes to [localStorage],
    and the calls to the translation capabilities and to [speakText]. *)
Inductive Event :=
  | QuotaChecked
  | StorageSet (key : jsstring)
  | CalledTranslateAudio (base64Audio targetLanguageName motherLanguageName mimeType : jsstring)
  | CalledTranslateText (inputText targetLanguageName motherLanguageName : jsstring)
  | CalledTranslateImage (base64Image targetLanguageName motherLanguageName mimeType : jsstring)
  | CalledTranslateOffline (text : jsstring) (targetLangCode : SupportedLanguageCode)
  | CalledSpeakText (text locale : jsstring).

Record World := mkWorld {
  app : AppState;
  localStorage : Storage;
  trace : list Event
}.

(** *** A state and exception monad for the handlers *)

Definition M (A : Type) : Type := World -> Completion A * World.

Definition ret {A : Type} (a : A) : M A := fun w => (Normal a, w).

Definition bind {A B : Type} (m : M A) (f : A -> M B) : M B :=
  fun w =>
    match m w with
    | (Normal a, w1) => f a w1
    | (Throw e, w1) => (Throw e, w1)
    end.

Definition lift {A : Type} (c : Completion A) : M A := fun w => (c, w).

Notation "x <- m ;; k" := (bind m (fun x => k))
  (at level 61, m at next level, right associativity).
Notation "m ;; k" := (bind m (fun _ => k))
  (at level 61, right associativity).

(** [try { body } catch (e) { handler e } finally { final }]. *)
Definition try_catch_finally (body : M unit) (handler : JSError -> M unit)
    (final : M unit) : M unit :=
  fun w =>
    match body w with
    | (Normal _, w1) => final w1
    | (Throw e, w1) =>
      match handler e w1 with
      | (Normal _, w2) => final w2
      | (Throw e2, w2) =>
        match final w2 with
        | (Normal _, w3) => (Throw e2, w3)
        | (Throw e3, w3) => (Throw e3, w3)
        end
      end
    end.

Definition get : M AppState := fun w => (Normal (app w), w).

Definition modify (f : AppState -> AppState) : M unit :=
  fun w => (Normal tt, mkWorld (f (app w)) (localStorage w) (trace w)).

Definition emit (e : Event) : M unit :=
  fun w => (Normal tt, mkWorld (app w) (localStorage w) (trace w ++ [e])).

Definition setShowPremiumModal (b : bool) : M unit :=
  modify (fun s => mkApp (user s) b (history s) (mode s) (motherLangCode s)
    (targetLangCode s) (isLoading s) (translationResult s) (error s) (isOnline s)).

Definition setIsLoading (b : bool) : M unit :=
  modify (fun s => mkApp (user s) (showPremiumModal s) (history s) (mode s)
    (motherLangCode s) (targetLangCode s) b (translationResult s) (error s) (isOnline s)).

Definition setTranslationResult (r : option TranslationResult) : M unit :=
  modify (fun s => mkApp (user s) (showPremiumModal s) (history s) (mode s)
    (motherLangCode s) (targetLangCode s) (isLoading s) r (error s) (isOnline s)).

Definition setError (e : option jsstring) : M unit :=
  modify (fun s => mkApp (user s) (showPremiumModal s) (history s) (mode s)
    (motherLangCode s) (targetLangCode s) (isLoading s) (translationResult s) e (isOnline s)).

Definition with_history (h : list HistoryItem) (s : AppState) : AppState :=
  mkApp (user s) (showPremiumModal s) h (mode s) (motherLangCode s)
    (targetLangCode s) (isLoading s) (translationResult s) (error s) (isOnline s).

Definition GV_USAGE : jsstring := utf16 "gv_usage".
Definition GV_HISTORY : jsstring := utf16 "gv_history".

(** [setHistory(f)], followed by the effect that depends on [history]
    (App.tsx:79-81), which stores the new history under [gv_history]. *)
Definition setHistory (f : list HistoryItem -> list HistoryItem) : M unit :=
  fun w =>
    let h := f (history (app w)) in
    (Normal tt,
     mkWorld (with_history h (app w))
             (mkStorage (gv_usage (localStorage w)) (Some h))
             (trace w ++ [StorageSet GV_HISTORY])).

(** [localStorage.getItem('gv_usage')] and [JSON.parse]. *)
Definition getItem_usage : M (option Usage) :=
  fun w => (Normal (gv_usage (localStorage w)), w).

(** [localStorage.setItem('gv_usage', JSON.stringify(usage))]. *)
Definition setItem_usage (u : Usage) : M unit :=
  fun w =>
    (Normal tt,
     mkWorld (app w)
             (mkStorage (Some u) (gv_history (localStorage w)))
             (trace w ++ [StorageSet GV_USAGE])).

(** ** Sample data

    A language table and an environment on which the properties below are
    exercised. *)

Definition lang_en : LanguageOption :=
  mkLanguage Code_en (utf16 "English") (utf16 "English") (utf16 "en-US") (utf16 "US").
Definition lang_id : LanguageOption :=
  mkLanguage Code_id (utf16 "Indonesian") (utf16 "Bahasa Indonesia") (utf16 "id-ID") (utf16 "ID").
Definition lang_ja : LanguageOption :=
  mkLanguage Code_ja (utf16 "Japanese") (utf16 "日本語") (utf16 "ja-JP") (utf16 "JP").
Definition lang_ko : LanguageOption :=
  mkLanguage Code_ko (utf16 "Korean") (utf16 "한국어") (utf16 "ko-KR") (utf16 "KR").

Definition sample_languages : list LanguageOption := [lang_en; lang_id; lang_ja; lang_ko].

Definition sample_TypeError : JSError :=
  mkError (Some (utf16 "Cannot read properties of undefined")) 1.

Definition sample_result (detected : string) : TranslationResult :=
  mkResult (utf16 "good night") (utf16 detected) (utf16 "selamat malam") None.

(** An environment whose cloud call answers [r]. *)
Definition env_ok (day : string) (uuid : N) (r : TranslationResult) : Env :=
  mkEnv (utf16 day) true [uuid] 0
        (fun _ => Normal (Some (utf16 "{}")))
        (fun _ => Normal r)
        (fun _ => Normal (utf16 "AAAA")).

(** An environment whose cloud call throws an error with message [m]. *)
Definition env_failing (day m : string) : Env :=
  mkEnv (utf16 day) true (utf16 "uuid-0") 0
        (fun _ => Throw (new_Error (utf16 m)))
        (fun _ => Throw (new_Error (utf16 "Unexpected end of JSON input")))
        (fun _ => Normal (utf16 "AAAA")).

Definition sample_blob : Blob := mkBlob [26%N; 69%N; 223%N; 163%N] (utf16 "audio/webm").

Definition sample_user (premium : bool) (packs : list SupportedLanguageCode) : User :=
  mkUser (utf16 "a@b.c") (utf16 "A") (Some premium) (Some packs).

Definition sample_world (u : User) (online : bool) (m : TranslationMode)
    (mother target : SupportedLanguageCode) (usage : option Usage) : World :=
  mkWorld (mkApp (Some u) false [] m mother target false None None online)
          (mkStorage usage (Some []))
          [].

(** The inputs of 51 successive translations, told apart by identifier. *)
Definition sample_51 : list (Env * TranslationResult) :=
  map (fun i => (env_ok "2024-05-02" (N.of_nat i) (sample_result "en"), sample_result "en"))
      (seq 0 51).

Section IVoice.

(** [String.prototype.toLowerCase] is a parameter: its Unicode case
    mapping is not reproduced, only its behaviour on ASCII strings is
    assumed. *)
Variable toLowerCase : jsstring -> jsstring.
Hypothesis toLowerCase_ascii :
  forall s, isAscii s = true -> toLowerCase s = ascii_toLowerCase s.

(** The language table of [constants.ts], which is not among the sources. *)
Variable SUPPORTED_LANGUAGES : list LanguageOption.

(** The [TypeError] raised when a property of [undefined] is read. *)
Variable TypeError_undefined : JSError.

(** *** [geminiService.ts] *)

Definition OFFLINE_DICTIONARY : list (jsstring * list (jsstring * jsstring)) :=
  let entry (k i e j z n : string) :=
    (utf16 k, [(utf16 "id", utf16 i); (utf16 "es", utf16 e); (utf16 "ja", utf16 j);
               (utf16 "zh", utf16 z); (utf16 "en", utf16 n)]) in
  [ entry "hello" "halo" "hola" "こんにちは" "你好" "hello";
    entry "thank you" "terima kasih" "gracias" "ありがとう" "谢谢" "thank you";
    entry "where is the bathroom" "di mana kamar mandi" "donde está el baño"
          "トイレはどこですか" "洗手间在哪里" "where is the bathroom";
    entry "help me" "tolong saya" "ayúdame" "助けて" "帮帮我" "help me";
    entry "good morning" "selamat pagi" "buenos días" "おはよう" "早上好" "good morning";
    entry "how much" "berapa harganya" "cuánto cuesta" "いくらですか" "多少钱" "how much";
    entry "i am lost" "saya tersesat" "estoy perdido" "迷いました" "我迷路了" "i am lost";
    entry "water" "air" "agua" "水" "水" "water";
    entry "food" "makanan" "comida" "食べ物" "食物" "food";
    entry "yes" "ya" "sí" "はい" "是" "yes";
    entry "no" "tidak" "no" "いいえ" "不" "no" ].

Definition SAFETY_BLOCK : jsstring :=
  utf16 "Safety Block: The content was flagged as inappropriate for translation.".
Definition LIMIT_REACHED : jsstring :=
  utf16 "Limit Reached: The translation engine is currently over capacity. Please try again in a few seconds.".
Definition RECITATION_BLOCK : jsstring :=
  utf16 "Recitation Block: The engine detected copyrighted material and cannot translate it.".

(** [handleGenAIError] never returns: the value of this function is the
    value it throws. *)
Definition handleGenAIError (error : JSError) : JSError :=
  let message := or_default (err_message error) [] in
  if includes message (utf16 "SAFETY") then new_Error SAFETY_BLOCK
  else if includes message (utf16 "429") || includes message (utf16 "quota")
  then new_Error LIMIT_REACHED
  else if includes message (utf16 "RECITATION") then new_Error RECITATION_BLOCK
  else error.

(** [`[Offline: ${text}]`] *)
Definition offline_marker (text : jsstring) : jsstring :=
  utf16 "[Offline: " ++ text ++ utf16 "]".

(** [!translation] *)
Definition falsy (t : option jsstring) : bool :=
  match t with Some s => negb (truthy s) | None => true end.

(** The target code is one of [SupportedLanguageCode] at every call; for
    these eight strings the lookups find nothing on the prototype chain of
    the object literals, so own-property lookup is what the indexing does.
    Indexing [OFFLINE_DICTIONARY[foundKey]] without [?.] throws when the
    key is absent. *)
Definition translateOffline (text : jsstring) (targetLangCode : SupportedLanguageCode)
  : Completion TranslationResult :=
  let cleanText := replace_marks (trim (toLowerCase text)) in
  let translation :=
    match lookup cleanText OFFLINE_DICTIONARY with
    | Some e => lookup (code_str targetLangCode) e
    | None => None
    end in
  let finish (translation : option jsstring) :=
    Normal {| original_text := text;
              detected_language := utf16 "en";
              translated_text := or_default translation (offline_marker text);
              phonetic := Some [] |} in
  if falsy translation then
    match find (fun key => includes cleanText key) (keys OFFLINE_DICTIONARY) with
    | Some foundKey =>
      if truthy foundKey then
        match lookup foundKey OFFLINE_DICTIONARY with
        | Some e => finish (lookup (code_str targetLangCode) e)
        | None => Throw TypeError_undefined
        end
      else finish translation
    | None => finish translation
    end
  else finish translation.

Definition EMPTY_RESPONSE : jsstring :=
  utf16 "The translation engine returned an empty response.".

(** The body shared by the three cloud calls: the request, the emptiness
    test on [response.text], [JSON.parse], and the [catch] that rethrows
    through [handleGenAIError]. *)
Definition cloud_call (env : Env) (req : CloudRequest) : Completion TranslationResult :=
  let body :=
    match generateContent env req with
    | Normal text =>
      match text with
      | Some t => if truthy t then JSON_parse env t else Throw (new_Error EMPTY_RESPONSE)
      | None => Throw (new_Error EMPTY_RESPONSE)
      end
    | Throw e => Throw e
    end in
  match body with
  | Normal r => Normal r
  | Throw err => Throw (handleGenAIError err)
  end.

Definition translateAudio (env : Env) (base64Audio targetLanguageName
    motherLanguageName mimeType : jsstring) : Completion TranslationResult :=
  let finalMimeType := if truthy mimeType then mimeType else utf16 "audio/webm" in
  let langList := map name SUPPORTED_LANGUAGES in
  cloud_call env (AudioRequest finalMimeType base64Audio langList
                               motherLanguageName targetLanguageName).

Definition translateText (env : Env) (inputText targetLanguageName
    motherLanguageName : jsstring) : Completion TranslationResult :=
  cloud_call env (TextRequest inputText motherLanguageName targetLanguageName).

Definition translateImage (env : Env) (base64Image targetLanguageName
    motherLanguageName mimeType : jsstring) : Completion TranslationResult :=
  cloud_call env (ImageRequest mimeType base64Image motherLanguageName targetLanguageName).

(** *** [App.tsx]: usage ledger *)

(** [user?.isPremium] used as a condition. *)
Definition is_premium (u : option User) : bool :=
  match u with
  | Some u' => match isPremium u' with Some b => b | None => false end
  | None => false
  end.

Definition checkUsageLimit (env : Env) : M bool :=
  emit QuotaChecked ;;
  st <- get ;;
  if is_premium (user st) then ret true
  else
    usageStr <- getItem_usage ;;
    let usage := match usageStr with
                 | Some u => u
                 | None => mkUsage (today env) 0
                 end in
    let usage := if negb (eqb (date usage) (today env))
                 then mkUsage (today env) 0 else usage in
    if (count usage >=? 3)%Z
    then setShowPremiumModal true ;; ret false
    else ret true.

Definition incrementUsage (env : Env) : M unit :=
  st <- get ;;
  if is_premium (user st) then ret tt
  else
    usageStr <- getItem_usage ;;
    let usage := match usageStr with
                 | Some u => u
                 | None => mkUsage (today env) 0
                 end in
    let usage := mkUsage (date usage) (count usage + 1) in
    setItem_usage usage.

(** *** [App.tsx]: history store *)

Definition find_language (c : SupportedLanguageCode) : option LanguageOption :=
  find (fun l => code_eqb (code l) c) SUPPORTED_LANGUAGES.

Definition motherLang (st : AppState) := find_language (motherLangCode st).
Definition targetLang (st : AppState) := find_language (targetLangCode st).

(** Reading a property of a language that [find] may not have found. *)
Definition prop {A : Type} (f : LanguageOption -> A) (l : option LanguageOption) : M A :=
  match l with
  | Some l' => ret (f l')
  | None => lift (Throw TypeError_undefined)
  end.

Definition addToHistory (env : Env) (result : TranslationResult) : M unit :=
  st <- get ;;
  let currentTarget :=
    if eqb (detected_language result) (code_str (motherLangCode st))
    then targetLang st else motherLang st in
  n <- prop name currentTarget ;;
  l <- prop ttsLocale currentTarget ;;
  f <- prop flag currentTarget ;;
  let newItem := mkItem result (randomUUID env) (now env) n l f in
  setHistory (fun prev => firstn 50 (newItem :: prev)).

(** *** [App.tsx]: messages *)

Definition MSG_NO_INTERNET : jsstring :=
  utf16 "No internet connection detected. Please reconnect to use the high-performance translation engine.".
Definition MSG_SAFETY : jsstring :=
  utf16 "The translation engine blocked the content for safety reasons. Try using more common words.".
Definition MSG_LIMIT : jsstring :=
  utf16 "Our servers are currently overwhelmed with requests. Please wait a moment and try again.".
Definition MSG_UNEXPECTED : jsstring :=
  utf16 "An unexpected error occurred in the translation engine. Please try again.".
Definition MSG_VOICE_PREMIUM : jsstring :=
  utf16 "Offline translation is a Premium feature. Please connect to the internet to upgrade.".
Definition MSG_VOICE_PACK (langName : jsstring) : jsstring :=
  utf16 "Language pack for " ++ langName ++
  utf16 " not found. Please connect to the internet and go to Settings to download it for offline use.".
Definition MSG_VOICE_ENGINE : jsstring :=
  utf16 "Local translation engine encountered an error. Try a simpler phrase or reconnect to the internet.".
Definition MSG_TEXT_PREMIUM : jsstring :=
  utf16 "Offline text translation is a Premium feature. Please connect to the internet to upgrade.".
Definition MSG_TEXT_PACK (langName : jsstring) : jsstring :=
  utf16 "The " ++ langName ++
  utf16 " pack is not downloaded. Connect to the internet and go to Settings to download it for offline use.".
Definition MSG_TEXT_LOOKUP : jsstring :=
  utf16 "Offline dictionary lookup failed. Try a simpler phrase or connect to the internet.".
Definition MSG_IMAGE_OFFLINE : jsstring :=
  utf16 "Visual intelligence requires a cloud connection. Please connect to the internet to scan images.".

(** [err] is an object: on [undefined] or [null] the source throws while
    it reads [err.message]; see [has_message]. *)
Definition parseErrorMessage (env : Env) (err : JSError) : jsstring :=
  let msg := or_default (err_message err) [] in
  if negb (navigator_onLine env) then MSG_NO_INTERNET
  else if includes msg (utf16 "Safety") then MSG_SAFETY
  else if includes msg (utf16 "Limit") then MSG_LIMIT
  else or_default (Some msg) MSG_UNEXPECTED.

(** [speakText]: the call is recorded with its text and locale; what the
    speech synthesis of the browser does with it is outside the program. *)
Definition speakText (text locale : jsstring) : M unit := emit (CalledSpeakText text locale).

(** [user?.downloadedLanguages?.includes(targetLangCode)] as a condition. *)
Definition is_downloaded (u : option User) (c : SupportedLanguageCode) : bool :=
  match u with
  | Some u' =>
    match downloadedLanguages u' with
    | Some ls => existsb (code_eqb c) ls
    | None => false
    end
  | None => false
  end.

(** [SUPPORTED_LANGUAGES.find(l => l.code === c)?.nativeName || c] *)
Definition langName_of (c : SupportedLanguageCode) : jsstring :=
  or_default (option_map nativeName (find_language c)) (code_str c).

Definition mode_eqb (a b : TranslationMode) : bool :=
  match a, b with
  | voice_to_voice, voice_to_voice | voice_to_text, voice_to_text
  | text_to_text, text_to_text | image_to_text, image_to_text
  | offline_settings, offline_settings => true
  | _, _ => false
  end.

(** *** [App.tsx]: the dispatcher *)

Definition processAudio (env : Env) (blob : Blob) : M unit :=
  setIsLoading true ;;
  setError None ;;
  setTranslationResult None ;;
  st <- get ;;
  if negb (isOnline st) then
    if negb (is_premium (user st)) then
      setError (Some MSG_VOICE_PREMIUM) ;;
      setIsLoading false
    else if negb (is_downloaded (user st) (targetLangCode st)) then
      setError (Some (MSG_VOICE_PACK (langName_of (targetLangCode st)))) ;;
      setIsLoading false
    else
      try_catch_finally
        (emit (CalledTranslateOffline (utf16 "Help me") (targetLangCode st)) ;;
         result <- lift (translateOffline (utf16 "Help me") (targetLangCode st)) ;;
         setTranslationResult (Some result) ;;
         addToHistory env result ;;
         if mode_eqb (mode st) voice_to_voice then
           locale <- prop ttsLocale (targetLang st) ;;
           speakText (translated_text result) locale
         else ret tt)
        (fun e => setError (Some MSG_VOICE_ENGINE))
        (setIsLoading false)
  else
    try_catch_finally
      (base64Audio <- lift (blobToBase64 env blob) ;;
       tn <- prop name (targetLang st) ;;
       mn <- prop name (motherLang st) ;;
       emit (CalledTranslateAudio base64Audio tn mn (blob_type blob)) ;;
       result <- lift (translateAudio env base64Audio tn mn (blob_type blob)) ;;
       setTranslationResult (Some result) ;;
       addToHistory env result ;;
       incrementUsage env ;;
       if mode_eqb (mode st) voice_to_voice then
         let ttsLang :=
           if eqb (detected_language result) (code_str (motherLangCode st))
           then targetLang st else motherLang st in
         locale <- prop ttsLocale ttsLang ;;
         speakText (translated_text result) locale
       else ret tt)
      (fun err => setError (Some (parseErrorMessage env err)))
      (setIsLoading false).

Definition handleTextTranslate (env : Env) (inputText : jsstring) : M unit :=
  allowed <- checkUsageLimit env ;;
  if negb allowed then ret tt
  else
    setIsLoading true ;;
    setError None ;;
    setTranslationResult None ;;
    st <- get ;;
    if negb (isOnline st) then
      if negb (is_premium (user st)) then
        setError (Some MSG_TEXT_PREMIUM) ;;
        setIsLoading false
      else if negb (is_downloaded (user st) (targetLangCode st)) then
        setError (Some (MSG_TEXT_PACK (langName_of (targetLangCode st)))) ;;
        setIsLoading false
      else
        try_catch_finally
          (emit (CalledTranslateOffline inputText (targetLangCode st)) ;;
           result <- lift (translateOffline inputText (targetLangCode st)) ;;
           setTranslationResult (Some result) ;;
           addToHistory env result)
          (fun e => setError (Some MSG_TEXT_LOOKUP))
          (setIsLoading false)
    else
      try_catch_finally
        (tn <- prop name (targetLang st) ;;
         mn <- prop name (motherLang st) ;;
         emit (CalledTranslateText inputText tn mn) ;;
         result <- lift (translateText env inputText tn mn) ;;
         setTranslationResult (Some result) ;;
         addToHistory env result ;;
         incrementUsage env)
        (fun err => setError (Some (parseErrorMessage env err)))
        (setIsLoading false).

Definition handleImageTranslate (env : Env) (base64Image mimeType : jsstring) : M unit :=
  st <- get ;;
  if negb (isOnline st) then
    setError (Some MSG_IMAGE_OFFLINE)
  else
    allowed <- checkUsageLimit env ;;
    if negb allowed then ret tt
    else
      setIsLoading true ;;
      setError None ;;
      setTranslationResult None ;;
      try_catch_finally
        (tn <- prop name (targetLang st) ;;
         mn <- prop name (motherLang st) ;;
         emit (CalledTranslateImage base64Image tn mn mimeType) ;;
         result <- lift (translateImage env base64Image tn mn mimeType) ;;
         setTranslationResult (Some result) ;;
         addToHistory env result ;;
         incrementUsage env)
        (fun err => setError (Some (parseErrorMessage env err)))
        (setIsLoading false).

(** *** [App.tsx]: the other handlers *)

Definition setUser (u : option User) : M unit :=
  modify (fun s => mkApp u (showPremiumModal s) (history s) (mode s) (motherLangCode s)
    (targetLangCode s) (isLoading s) (translationResult s) (error s) (isOnline s)).

Definition setMotherLangCode (c : SupportedLanguageCode) : M unit :=
  modify (fun s => mkApp (user s) (showPremiumModal s) (history s) (mode s) c
    (targetLangCode s) (isLoading s) (translationResult s) (error s) (isOnline s)).

Definition setTargetLangCode (c : SupportedLanguageCode) : M unit :=
  modify (fun s => mkApp (user s) (showPremiumModal s) (history s) (mode s)
    (motherLangCode s) c (isLoading s) (translationResult s) (error s) (isOnline s)).

(** [navigator.language.split('-')[0]]: the text before the first hyphen. *)
Fixpoint before_hyphen (s : jsstring) : jsstring :=
  match s with
  | [] => []
  | c :: s' => if (c =? 45)%N then [] else c :: before_hyphen s'
  end.

(** The language detection of the mount effect (App.tsx:65-71), run on the
    state the component starts with. *)
Definition detectLanguage (navigator_language : jsstring) : M unit :=
  let browserLang := before_hyphen navigator_language in
  match find (fun l => eqb (code_str (code l)) browserLang) SUPPORTED_LANGUAGES with
  | Some matchedLang =>
    setMotherLangCode (code matchedLang) ;;
    if eqb (code_str (code matchedLang)) (utf16 "id") then setTargetLangCode Code_en
    else if eqb (code_str (code matchedLang)) (utf16 "en") then setTargetLangCode Code_id
    else ret tt
  | None => ret tt
  end.

Definition swapLanguages : M unit :=
  st <- get ;;
  let temp := motherLangCode st in
  setMotherLangCode (targetLangCode st) ;;
  setTargetLangCode temp ;;
  setTranslationResult None.

Definition handleDownloadPack (c : SupportedLanguageCode) : M unit :=
  st <- get ;;
  match user st with
  | None => ret tt
  | Some u =>
    let currentDownloaded :=
      match downloadedLanguages u with Some ls => ls | None => [] end in
    if negb (existsb (code_eqb c) currentDownloaded) then
      setUser (Some (mkUser (email u) (user_name u) (isPremium u)
                            (Some (currentDownloaded ++ [c]))))
    else ret tt
  end.

Definition handleClearResult : M unit :=
  setTranslationResult None ;;
  setError None.

Definition handleLogout : M unit :=
  setUser None ;;
  handleClearResult.

(** [onDelete] of the history panel (App.tsx:552). *)
Definition deleteHistoryItem (itemId : jsstring) : M unit :=
  setHistory (fun prev => filter (fun i => negb (eqb (id i) itemId)) prev).

(** [onClearAll] of the history panel (App.tsx:553); [confirmed] is the
    answer to [confirm('Clear history?')]. *)
Definition clearHistory (confirmed : bool) : M unit :=
  if confirmed then setHistory (fun _ => []) else ret tt.

(** ** Definitions of the specification

    The notions the specification states its properties with, written from
    its words, to be compared with the code above. *)

(** The count the quota check works with: the stored count when the stored
    date is the current day, 0 otherwise. *)
Definition effective_count (day : jsstring) (stored : option Usage) : Z :=
  match stored with
  | Some u => if eqb (date u) day then count u else 0%Z
  | None => 0%Z
  end.

(** How the dispatcher surfaces the local policy signals. *)
Definition ConnectivityRequired (w : World) : Prop :=
  error (app w) = Some MSG_IMAGE_OFFLINE.

Definition EntitlementRequired (w : World) : Prop :=
  error (app w) = Some MSG_VOICE_PREMIUM \/
  error (app w) = Some MSG_TEXT_PREMIUM \/
  error (app w) = Some (MSG_VOICE_PACK (langName_of (targetLangCode (app w)))) \/
  error (app w) = Some (MSG_TEXT_PACK (langName_of (targetLangCode (app w)))).

Definition QuotaExceeded (w : World) : Prop :=
  showPremiumModal (app w) = true.

(** The kinds of the error classifier and its rule table, in order. *)
Inductive Kind := ContentSafetyBlocked | RateLimited | CopyrightBlocked | Unclassified.

Definition classifier_rules : list ((jsstring -> bool) * Kind) :=
  [ (fun m => includes m (utf16 "SAFETY"), ContentSafetyBlocked);
    (fun m => includes m (utf16 "429") || includes m (utf16 "quota"), RateLimited);
    (fun m => includes m (utf16 "RECITATION"), CopyrightBlocked) ].

Definition message_text (raw : JSError) : jsstring := or_default (err_message raw) [].

Definition classify (raw : JSError) : Kind :=
  match find (fun rule => fst rule (message_text raw)) classifier_rules with
  | Some rule => snd rule
  | None => Unclassified
  end.

(** The failure that stands for a kind. *)
Definition failure_of (k : Kind) (raw : JSError) : JSError :=
  match k with
  | ContentSafetyBlocked => new_Error SAFETY_BLOCK
  | RateLimited => new_Error LIMIT_REACHED
  | CopyrightBlocked => new_Error RECITATION_BLOCK
  | Unclassified => raw
  end.

(** The reference algorithm of the offline resolver.  The terminal
    punctuation marks are the full stop, the question mark and the
    exclamation mark. *)
Definition normalize_spec (text : jsstring) : jsstring :=
  replace_marks (trim (toLowerCase text)).

Definition resolve_spec (text : jsstring) (c : SupportedLanguageCode) : jsstring :=
  let n := normalize_spec text in
  let matched :=
    match lookup n OFFLINE_DICTIONARY with
    | Some e => Some e
    | None =>
      match find (fun k => includes n k) (keys OFFLINE_DICTIONARY) with
      | Some k => lookup k OFFLINE_DICTIONARY
      | None => None
      end
    end in
  match matched with
  | Some e =>
    match lookup (code_str c) e with
    | Some t => t
    | None => offline_marker text
    end
  | None => offline_marker text
  end.

(** The playback requests of a trace, oldest first. *)
Definition spoken (t : list Event) : list (jsstring * jsstring) :=
  flat_map (fun e => match e with CalledSpeakText text locale => [(text, locale)] | _ => [] end) t.

(** The writes to [localStorage] of a trace. *)
Definition writes (t : list Event) : list jsstring :=
  flat_map (fun e => match e with StorageSet k => [k] | _ => [] end) t.

(** The calls to the offline resolver of a trace. *)
Definition offline_calls (t : list Event) : list (jsstring * SupportedLanguageCode) :=
  flat_map (fun e => match e with CalledTranslateOffline x c => [(x, c)] | _ => [] end) t.

(** The calls to the cloud capability of a trace. *)
Definition is_cloud_call (e : Event) : bool :=
  match e with
  | CalledTranslateAudio _ _ _ _ | CalledTranslateText _ _ _
  | CalledTranslateImage _ _ _ _ => true
  | _ => false
  end.

(** Successive appends to the history store, one per translation. *)
Fixpoint append_all (rs : list (Env * TranslationResult)) : M unit :=
  match rs with
  | [] => ret tt
  | (env, r) :: rs' => addToHistory env r ;; append_all rs'
  end.


(** The [help me] entry of the dictionary. *)
Definition help_me_entry : list (jsstring * jsstring) :=
  match lookup (utf16 "help me") OFFLINE_DICTIONARY with
  | Some e => e
  | None => []
  end.

(** The item an append builds from a result, once the two languages of
    the pair are known: the display fields are those of the other
    language of the pair. *)
Definition newItem_of (lm lt : LanguageOption) (mother : SupportedLanguageCode)
    (env : Env) (r : TranslationResult) : HistoryItem :=
  let other := if eqb (detected_language r) (code_str mother) then lt else lm in
  mkItem r (randomUUID env) (now env) (name other) (ttsLocale other) (flag other).


Definition all_codes : list SupportedLanguageCode :=
  [Code_en; Code_id; Code_zh; Code_es; Code_ko; Code_ja; Code_nl; Code_ar].

Definition is_none {A : Type} (o : option A) : bool :=
  match o with Some _ => false | None => true end.

(** The operations on the history store, and a run of them: each is one
    action of the user interface, so a run goes on after an append that
    threw. *)
Inductive HistoryOp :=
  | OpAppend (env : Env) (r : TranslationResult)
  | OpDelete (itemId : jsstring)
  | OpClear (confirmed : bool).

Definition run_op (op : HistoryOp) : M unit :=
  match op with
  | OpAppend env r => addToHistory env r
  | OpDelete itemId => deleteHistoryItem itemId
  | OpClear confirmed => clearHistory confirmed
  end.

Fixpoint run_ops (ops : list HistoryOp) (w : World) : World :=
  match ops with
  | [] => w
  | op :: ops' => run_ops ops' (snd (run_op op w))
  end.

(** The history holds at most 50 items and its stored copy is up to date. *)
Definition history_invariant (w : World) : Prop :=
  List.length (history (app w)) <= 50
  /\ gv_history (localStorage w) = Some (history (app w)).

(** [Q] holds of the world a computation ends in, whatever its completion,
    when it starts in a world where [P] holds. *)
Definition triple {A : Type} (P : World -> Prop) (m : M A) (Q : World -> Prop) : Prop :=
  forall w, P w -> Q (snd (m w)).

(** The computation completes normally from every world. *)
Definition completes {A : Type} (m : M A) : Prop :=
  forall w, exists a, fst (m w) = Normal a.

(** The part of the state a request has no business with. *)
Definition same_session (w0 w : World) : Prop :=
  user (app w) = user (app w0)
  /\ mode (app w) = mode (app w0)
  /\ motherLangCode (app w) = motherLangCode (app w0)
  /\ targetLangCode (app w) = targetLangCode (app w0)
  /\ isOnline (app w) = isOnline (app w0).

(** The number of calls to a translation capability, cloud or offline, in
    a trace. *)
Definition capability_calls (t : list Event) : nat :=
  List.length (filter (fun e => match e with
                                | CalledTranslateOffline _ _ => true
                                | _ => is_cloud_call e
                                end) t).


(** At most [k] calls to a translation capability have been made. *)
Definition calls_le (k : nat) (w : World) : Prop := capability_calls (trace w) <= k.


(** [p] holds of what [proj] reads off the world. *)
Definition observes {X : Type} (proj : World -> X) (p : X -> Prop) (w : World) : Prop :=
  p (proj w).

(** The ledger after one recorded usage. *)
Definition recorded (env : Env) (stored : option Usage) : option Usage :=
  Some match stored with
       | Some u => mkUsage (date u) (count u + 1)
       | None => mkUsage (today env) 1
       end.












(** The thrown value has a [message]: it is an object with a string under
    [message], such as an [Error], and not [undefined] or [null], on which
    reading [message] throws. *)
Definition has_message (e : JSError) : Prop := err_message e <> None.


(** The counts on which adding one in double precision is adding one. *)
Definition safe_count (stored : option Usage) : Prop :=
  forall u, stored = Some u -> (- 2 ^ 53 <= count u < 2 ^ 53)%Z.


(** Unfolding of the monad and projection of the records, for the proofs
    about the handlers. *)
Ltac unfold_M :=
  unfold setShowPremiumModal, setIsLoading, setTranslationResult, setError, speakText;
  unfold bind, ret, lift, get, modify, emit, getItem_usage, setItem_usage.

Ltac proj_simpl :=
  cbn [fst snd app localStorage trace user showPremiumModal history mode
       motherLangCode targetLangCode isLoading translationResult error isOnline
       gv_usage gv_history with_history negb].

(** ** Properties *)

(** *** Strings *)

Lemma jsstring_eqb_refl (a : jsstring) : eqb a a = true.
Proof.
  induction a as [|x a IH]; simpl; [reflexivity|].
  now rewrite N.eqb_refl, IH.
Qed.

Lemma jsstring_eqb_eq (a b : jsstring) : eqb a b = true <-> a = b.
Proof.
  split.
  - revert b. induction a as [|x a IH]; intros [|y b]; simpl; try discriminate; auto.
    intros H. apply andb_true_iff in H as [H1 H2].
    apply N.eqb_eq in H1. subst. f_equal. now apply IH.
  - intros ->. apply jsstring_eqb_refl.
Qed.

Lemma jsstring_eqb_neq (a b : jsstring) : eqb a b = false <-> a <> b.
Proof.
  split.
  - intros H E. apply jsstring_eqb_eq in E. congruence.
  - intros H. destruct (eqb a b) eqn:E; [|reflexivity].
    apply jsstring_eqb_eq in E. contradiction.
Qed.

Lemma startsWith_refl (s : jsstring) : startsWith s s = true.
Proof.
  induction s as [|x s IH]; simpl; [reflexivity|].
  now rewrite N.eqb_refl, IH.
Qed.

Lemma includes_refl (s : jsstring) : includes s s = true.
Proof.
  destruct s; simpl; [reflexivity|].
  now rewrite N.eqb_refl, startsWith_refl.
Qed.

(** *** Offline resolver *)

Lemma lookup_In {V : Type} (k : jsstring) (o : list (jsstring * V)) (v : V) :
  lookup k o = Some v -> In (k, v) o.
Proof.
  induction o as [|[k' v'] o IH]; simpl; [discriminate|].
  destruct (eqb k k') eqn:E.
  - intros H. injection H as <-. apply jsstring_eqb_eq in E. subst. now left.
  - intros H. right. now apply IH.
Qed.

Lemma In_keys_lookup {V : Type} (k : jsstring) (o : list (jsstring * V)) :
  In k (keys o) -> exists v, lookup k o = Some v.
Proof.
  induction o as [|[k' v'] o IH]; simpl; [contradiction|].
  intros [<-|I].
  - rewrite jsstring_eqb_refl. now exists v'.
  - destruct (eqb k k'); [now exists v'|]. now apply IH.
Qed.

Lemma In_all_codes (c : SupportedLanguageCode) : In c all_codes.
Proof. destruct c; simpl; tauto. Qed.

(** Every key of the dictionary is a non-empty string and every
    translation it holds is a non-empty string. *)
Lemma dictionary_truthy :
  forallb (fun kv =>
    truthy (fst kv) &&
    forallb (fun c => match lookup (code_str c) (snd kv) with
                      | Some t => truthy t
                      | None => true
                      end) all_codes) OFFLINE_DICTIONARY = true.
Proof. vm_compute. reflexivity. Qed.

(** Every entry of the dictionary has the same languages. *)
Lemma dictionary_uniform :
  forallb (fun c =>
    forallb (fun kv => is_none (lookup (code_str c) (snd kv))) OFFLINE_DICTIONARY
    || forallb (fun kv => negb (is_none (lookup (code_str c) (snd kv)))) OFFLINE_DICTIONARY)
    all_codes = true.
Proof. vm_compute. reflexivity. Qed.

Lemma entry_truthy (k : jsstring) (e : list (jsstring * jsstring))
    (c : SupportedLanguageCode) (t : jsstring) :
  In (k, e) OFFLINE_DICTIONARY ->
  truthy k = true /\ (lookup (code_str c) e = Some t -> truthy t = true).
Proof.
  intros I. pose proof dictionary_truthy as D.
  rewrite forallb_forall in D. specialize (D _ I). cbn [fst snd] in D.
  apply andb_true_iff in D as [D1 D2]. split; [exact D1|].
  rewrite forallb_forall in D2. specialize (D2 c (In_all_codes c)).
  intros L. rewrite L in D2. exact D2.
Qed.

Lemma entry_uniform (k k' : jsstring) (e e' : list (jsstring * jsstring))
    (c : SupportedLanguageCode) :
  In (k, e) OFFLINE_DICTIONARY ->
  In (k', e') OFFLINE_DICTIONARY ->
  lookup (code_str c) e = None ->
  lookup (code_str c) e' = None.
Proof.
  intros I I' L. pose proof dictionary_uniform as D.
  rewrite forallb_forall in D. specialize (D c (In_all_codes c)).
  apply orb_true_iff in D as [D|D]; rewrite forallb_forall in D.
  - specialize (D _ I'). cbn [snd] in D.
    destruct (lookup (code_str c) e'); [discriminate|reflexivity].
  - specialize (D _ I). cbn [snd] in D. rewrite L in D. discriminate.
Qed.

(** The resolver always returns, and returns what the reference
    algorithm does. *)
Lemma translateOffline_resolve (text : jsstring) (c : SupportedLanguageCode) :
  translateOffline text c =
    Normal (mkResult text (utf16 "en") (resolve_spec text c) (Some [])).
Proof.
  unfold translateOffline, resolve_spec, normalize_spec.
  set (n := replace_marks (trim (toLowerCase text))).
  cbv beta zeta.
  assert (K : forall k, find (fun key => includes n key) (keys OFFLINE_DICTIONARY) = Some k ->
              exists e, lookup k OFFLINE_DICTIONARY = Some e
                        /\ In (k, e) OFFLINE_DICTIONARY /\ truthy k = true).
  { intros k Fk. apply find_some in Fk as [I _].
    destruct (In_keys_lookup _ _ I) as [e L]. exists e.
    pose proof (lookup_In _ _ L) as I'.
    split; [exact L|]. split; [exact I'|].
    apply (entry_truthy c [] I'). }
  destruct (lookup n OFFLINE_DICTIONARY) as [e|] eqn:L.
  - pose proof (lookup_In _ _ L) as I.
    destruct (lookup (code_str c) e) as [t|] eqn:T.
    + destruct (entry_truthy c t I) as [_ Tt]. specialize (Tt T).
      unfold falsy, or_default. rewrite Tt. reflexivity.
    + cbn [falsy].
      destruct (find _ (keys OFFLINE_DICTIONARY)) as [k|] eqn:Fk; [|reflexivity].
      destruct (K k eq_refl) as [e' [L' [I' Tk]]].
      rewrite Tk, L', (entry_uniform c I I' T). reflexivity.
  - cbn [falsy].
    destruct (find _ (keys OFFLINE_DICTIONARY)) as [k|] eqn:Fk; [|reflexivity].
    destruct (K k eq_refl) as [e' [L' [I' Tk]]].
    rewrite Tk, L'.
    destruct (lookup (code_str c) e') as [t|] eqn:T; [|reflexivity].
    destruct (entry_truthy c t I') as [_ Tt]. specialize (Tt T).
    unfold or_default. rewrite Tt. reflexivity.
Qed.










(** *** Error classifier *)

(** C7. The classifier throws the failure of the first rule, in the order
    of the table, that the message text matches, and the raw failure
    itself when none does; a message with both [SAFETY] and [429] is a
    content safety block. *)
Theorem handleGenAIError_classify (raw : JSError) :
  handleGenAIError raw = failure_of (classify raw) raw
  /\ classify raw =
       (let m := message_text raw in
        if includes m (utf16 "SAFETY") then ContentSafetyBlocked
        else if includes m (utf16 "429") || includes m (utf16 "quota") then RateLimited
        else if includes m (utf16 "RECITATION") then CopyrightBlocked
        else Unclassified)
  /\ classify (mkError (Some (utf16 "429: blocked, finishReason SAFETY")) 7)
       = ContentSafetyBlocked
  /\ handleGenAIError (mkError (Some (utf16 "429: blocked, finishReason SAFETY")) 7)
       = new_Error SAFETY_BLOCK
  /\ handleGenAIError (mkError (Some (utf16 "fetch failed")) 7)
       = mkError (Some (utf16 "fetch failed")) 7.
Proof.
  split; [|split; [|vm_compute; repeat split]].
  - unfold handleGenAIError, classify, classifier_rules, message_text, failure_of.
    cbn [find fst snd].
    destruct (includes _ (utf16 "SAFETY")); [reflexivity|].
    destruct (includes _ (utf16 "429") || includes _ (utf16 "quota")); [reflexivity|].
    destruct (includes _ (utf16 "RECITATION")); reflexivity.
  - unfold classify, classifier_rules. cbn [find fst snd].
    destruct (includes _ (utf16 "SAFETY")); [reflexivity|].
    destruct (includes _ (utf16 "429") || includes _ (utf16 "quota")); [reflexivity|].
    destruct (includes _ (utf16 "RECITATION")); reflexivity.
Qed.


(** *** Usage ledger *)

(** The quota check on a given ledger: it allows a non-premium request
    exactly when the effective persisted count is below 3, always allows a
    premium one, and writes nothing to [localStorage]: the store is the same
    afterwards and the only event of the check is the check itself. *)
Theorem checkUsageLimit_quota (env : Env) (w : World) :
  fst (checkUsageLimit env w) =
    Normal (if is_premium (user (app w)) then true
            else (effective_count (today env) (gv_usage (localStorage w)) <? 3)%Z)
  /\ localStorage (snd (checkUsageLimit env w)) = localStorage w
  /\ trace (snd (checkUsageLimit env w)) = trace w ++ [QuotaChecked]
  /\ effective_count (today env) None = 0%Z
  /\ effective_count (utf16 "2024-05-02") (Some (mkUsage (utf16 "2024-05-01") 3)) = 0%Z.
Proof.
  assert (E : effective_count (utf16 "2024-05-02")
                (Some (mkUsage (utf16 "2024-05-01") 3)) = 0%Z) by (vm_compute; reflexivity).
  revert E. generalize (utf16 "2024-05-02") (utf16 "2024-05-01"). intros d1 d2 E.
  unfold checkUsageLimit, bind, emit, get, getItem_usage; simpl.
  destruct (is_premium (user (app w))); simpl.
  - repeat split; exact E.
  - destruct (gv_usage (localStorage w)) as [u|]; simpl.
    + destruct (eqb (date u) (today env)); simpl.
      * destruct (Z.geb_spec (count u) 3) as [G|G];
          destruct (Z.ltb_spec (count u) 3) as [L|L]; try lia; simpl;
          repeat split; exact E.
      * repeat split; exact E.
    + rewrite jsstring_eqb_refl; simpl. repeat split; exact E.
Qed.


(** Recording is a no-op for a premium user. *)
Lemma incrementUsage_premium (env : Env) (w : World) :
  is_premium (user (app w)) = true ->
  incrementUsage env w = (Normal tt, w).
Proof.
  intros P. unfold incrementUsage, bind, get; simpl. rewrite P. reflexivity.
Qed.

(** What recording stores for a non-premium user: the stored ledger with
    its count plus one and its date as it was, or a ledger of today with
    count 1 when none is stored. *)
Lemma incrementUsage_stored (env : Env) (w : World) :
  is_premium (user (app w)) = false ->
  gv_usage (localStorage (snd (incrementUsage env w))) =
    Some match gv_usage (localStorage w) with
         | Some u => mkUsage (date u) (count u + 1)
         | None => mkUsage (today env) 1
         end
  /\ gv_history (localStorage (snd (incrementUsage env w))) = gv_history (localStorage w)
  /\ app (snd (incrementUsage env w)) = app w.
Proof.
  intros P. unfold incrementUsage, bind, get, getItem_usage, setItem_usage; simpl.
  rewrite P; simpl. destruct (gv_usage (localStorage w)); simpl; repeat split.
Qed.

(** On a ledger that is absent or dated today, recording raises the
    effective count by one. *)
Lemma incrementUsage_effective_count (env : Env) (w : World) :
  is_premium (user (app w)) = false ->
  (forall u, gv_usage (localStorage w) = Some u -> date u = today env) ->
  effective_count (today env) (gv_usage (localStorage (snd (incrementUsage env w)))) =
    (effective_count (today env) (gv_usage (localStorage w)) + 1)%Z.
Proof.
  intros P D. destruct (incrementUsage_stored env w P) as [E _]. rewrite E.
  unfold effective_count.
  destruct (gv_usage (localStorage w)) as [u|]; simpl.
  - rewrite (D u eq_refl), jsstring_eqb_refl. reflexivity.
  - rewrite jsstring_eqb_refl. reflexivity.
Qed.

(** A ledger of another day stays a ledger of that day, so the check
    keeps seeing a count of 0. *)
Lemma stale_ledger_never_blocks (env : Env) (w : World) (u : Usage) :
  is_premium (user (app w)) = false ->
  gv_usage (localStorage w) = Some u ->
  date u <> today env ->
  effective_count (today env) (gv_usage (localStorage (snd (incrementUsage env w)))) = 0%Z.
Proof.
  intros P S D. destruct (incrementUsage_stored env w P) as [E _]. rewrite E, S.
  unfold effective_count; simpl.
  apply jsstring_eqb_neq in D. rewrite D. reflexivity.
Qed.

(** C2. At a ledger of the previous day with count 3, recording a usage
    of a non-premium user stores the previous day with count 4: the date
    is not reset to the current day and the count is not restarted, and
    the next check of that day still sees a count of 0. *)
Theorem incrementUsage_stale_ledger :
  let w := sample_world (sample_user false []) true text_to_text Code_en Code_id
                        (Some (mkUsage (utf16 "2024-05-01") 3)) in
  let env := env_ok "2024-05-02" 7 (sample_result "id") in
  let w' := snd (incrementUsage env w) in
  gv_usage (localStorage w') = Some (mkUsage (utf16 "2024-05-01") 4)
  /\ gv_usage (localStorage w') <> Some (mkUsage (today env) 1)
  /\ effective_count (today env) (gv_usage (localStorage w')) = 0%Z
  /\ fst (checkUsageLimit env w') = Normal true.
Proof.
  vm_compute. repeat split; try reflexivity. discriminate.
Qed.


(** *** History store *)

Lemma firstn_app_firstn {A : Type} (n : nat) (a b : list A) :
  firstn n (a ++ firstn n b) = firstn n (a ++ b).
Proof.
  rewrite !firstn_app, firstn_firstn.
  replace (Nat.min (n - List.length a) n) with (n - List.length a) by lia.
  reflexivity.
Qed.

(** Successive capped insertions at the front keep the most recent items,
    newest first. *)
Lemma fold_capped_insert {A B : Type} (mk : B -> A) (n : nat) (rs : list B) (h : list A) :
  List.length h <= n ->
  fold_left (fun h er => firstn n (mk er :: h)) rs h = firstn n (rev (map mk rs) ++ h).
Proof.
  revert h. induction rs as [|x rs IH]; intros h L; simpl.
  - symmetry. apply firstn_all2. exact L.
  - rewrite IH by apply firstn_le_length.
    rewrite firstn_app_firstn, <- app_assoc. reflexivity.
Qed.

(** What an append does when both languages of the pair are in the
    table. *)
Lemma addToHistory_run (env : Env) (r : TranslationResult) (w : World)
    (lm lt : LanguageOption) :
  motherLang (app w) = Some lm ->
  targetLang (app w) = Some lt ->
  addToHistory env r w =
    (Normal tt,
     let h := firstn 50 (newItem_of lm lt (motherLangCode (app w)) env r :: history (app w)) in
     mkWorld (with_history h (app w))
             (mkStorage (gv_usage (localStorage w)) (Some h))
             (trace w ++ [StorageSet GV_HISTORY])).
Proof.
  intros Hm Ht.
  unfold addToHistory, newItem_of, bind, get, prop, setHistory; simpl.
  destruct (eqb (detected_language r) (code_str (motherLangCode (app w))));
    [rewrite Ht | rewrite Hm]; reflexivity.
Qed.

Lemma append_all_run (rs : list (Env * TranslationResult)) (w : World)
    (lm lt : LanguageOption) :
  motherLang (app w) = Some lm ->
  targetLang (app w) = Some lt ->
  fst (append_all rs w) = Normal tt
  /\ history (app (snd (append_all rs w))) =
       fold_left (fun h er => firstn 50
                    (newItem_of lm lt (motherLangCode (app w)) (fst er) (snd er) :: h))
                 rs (history (app w)).
Proof.
  revert w. induction rs as [|[env r] rs IH]; intros w Hm Ht.
  - split; reflexivity.
  - simpl append_all. unfold bind.
    rewrite (addToHistory_run env r w Hm Ht). cbv zeta.
    set (w1 := mkWorld _ _ _).
    destruct (IH w1 Hm Ht) as [E1 E2].
    split; [exact E1|]. rewrite E2. reflexivity.
Qed.

(** C3. An append puts the new item at the front and keeps the first 50
    items: the history has at most 50 items afterwards, and from a history
    of 50 items exactly the last, oldest one is dropped.  After 51 appends
    to an empty history the history is the items of the last 50 appends,
    newest first, so with distinct identifiers the item of the first
    append is gone and the item of the second is the oldest one left. *)
Theorem addToHistory_capped (env : Env) (r : TranslationResult)
    (rs : list (Env * TranslationResult)) (w : World) (lm lt : LanguageOption) :
  motherLang (app w) = Some lm ->
  targetLang (app w) = Some lt ->
  let mk := fun er => newItem_of lm lt (motherLangCode (app w)) (fst er) (snd er) in
  let w1 := snd (addToHistory env r w) in
  let wn := snd (append_all rs w) in
  fst (addToHistory env r w) = Normal tt
  /\ history (app w1) = firstn 50 (mk (env, r) :: history (app w))
  /\ List.length (history (app w1)) <= 50
  /\ (List.length (history (app w)) = 50 ->
      history (app w1) = mk (env, r) :: removelast (history (app w)))
  /\ gv_history (localStorage w1) = Some (history (app w1))
  /\ fst (append_all rs w) = Normal tt
  /\ (history (app w) = [] -> List.length rs = 51 ->
      history (app wn) = rev (map mk (skipn 1 rs))
      /\ List.length (history (app wn)) = 50
      /\ (NoDup (map (fun er => randomUUID (fst er)) rs) ->
          forall first, hd_error rs = Some first -> ~ In (mk first) (history (app wn)))
      /\ (forall second, nth_error rs 1 = Some second ->
          last (history (app wn)) (mk second) = mk second
          /\ In (mk second) (history (app wn)))).
Proof.
  intros Hm Ht mk w1 wn.
  assert (R := addToHistory_run env r w Hm Ht).
  destruct (append_all_run rs w Hm Ht) as [A1 A2].
  subst w1 wn. rewrite R.
  cbn [fst snd app history localStorage gv_history with_history].
  split; [reflexivity|]. split; [reflexivity|].
  split; [apply firstn_le_length|].
  split.
  { intros L. change 50 with (S 49) at 1. rewrite firstn_cons. f_equal.
    rewrite removelast_firstn_len, L. reflexivity. }
  split; [reflexivity|]. split; [exact A1|].
  intros He Hl.
  assert (Hh : history (app (snd (append_all rs w))) = rev (map mk (skipn 1 rs))).
  { rewrite A2, He.
    change (fold_left _ rs [])
      with (fold_left (fun h er => firstn 50 (mk er :: h)) rs []).
    rewrite (fold_capped_insert mk (n:=50) rs []) by (simpl; lia).
    rewrite app_nil_r.
    destruct rs as [|first rs']; [discriminate|].
    cbn [skipn map rev List.length] in *.
    rewrite firstn_app.
    rewrite firstn_all2 by (rewrite length_rev, length_map; lia).
    replace (50 - List.length (rev (map mk rs'))) with 0
      by (rewrite length_rev, length_map; lia).
    rewrite firstn_0. apply app_nil_r. }
  rewrite Hh.
  destruct rs as [|first rs']; [discriminate|].
  cbn [skipn List.length] in *.
  split; [reflexivity|].
  split; [rewrite length_rev, length_map; lia|].
  split.
  - intros ND f Hf. injection Hf as <-. intros I.
    apply in_rev, in_map_iff in I. destruct I as [er [E I]].
    cbn [map] in ND. apply NoDup_cons_iff in ND. destruct ND as [ND _].
    apply ND. apply in_map_iff. exists er. split; [|exact I].
    apply (f_equal id) in E. exact E.
  - intros second H2. destruct rs' as [|s2 rs'']; [discriminate|].
    injection H2 as <-. cbn [map rev]. split.
    + apply last_last.
    + apply in_or_app. right. left. reflexivity.
Qed.



(** *** Dispatcher: local policy branches *)

(** The check, as a function of the stored ledger. *)
Lemma checkUsageLimit_run (env : Env) (w : World) :
  checkUsageLimit env w =
    (if is_premium (user (app w)) then
       (Normal true, mkWorld (app w) (localStorage w) (trace w ++ [QuotaChecked]))
     else if (effective_count (today env) (gv_usage (localStorage w)) <? 3)%Z then
       (Normal true, mkWorld (app w) (localStorage w) (trace w ++ [QuotaChecked]))
     else
       (Normal false,
        mkWorld (mkApp (user (app w)) true (history (app w)) (mode (app w))
                       (motherLangCode (app w)) (targetLangCode (app w))
                       (isLoading (app w)) (translationResult (app w))
                       (error (app w)) (isOnline (app w)))
                (localStorage w) (trace w ++ [QuotaChecked]))).
Proof.
  unfold checkUsageLimit, effective_count. unfold_M. proj_simpl.
  destruct (is_premium (user (app w))); [reflexivity|]. proj_simpl.
  destruct (gv_usage (localStorage w)) as [u|].
  - destruct (eqb (date u) (today env)); cbn [negb count].
    + destruct (Z.geb_spec (count u) 3) as [G|G];
        destruct (Z.ltb_spec (count u) 3) as [L|L]; try lia; reflexivity.
    + reflexivity.
  - cbn [date]. rewrite jsstring_eqb_refl. reflexivity.
Qed.

(** C4. An image submission made while [isOnline] is false ends at once
    with the connectivity message: no quota check and no capability call
    is made (the trace is unchanged), and the history and the stored
    ledger are unchanged, whoever the user is. *)
Theorem handleImageTranslate_offline (env : Env) (base64Image mimeType : jsstring)
    (w : World) :
  isOnline (app w) = false ->
  let w' := snd (handleImageTranslate env base64Image mimeType w) in
  fst (handleImageTranslate env base64Image mimeType w) = Normal tt
  /\ ConnectivityRequired w'
  /\ trace w' = trace w
  /\ localStorage w' = localStorage w
  /\ history (app w') = history (app w)
  /\ showPremiumModal (app w') = showPremiumModal (app w).
Proof.
  intros Off. unfold handleImageTranslate, ConnectivityRequired.
  unfold_M. proj_simpl. rewrite Off. proj_simpl.
  repeat split.
Qed.

(** C5, as amended.  Offline and without the entitlement (not premium, or
    the target pack not downloaded), a recorded payload handed to
    [processAudio] ends with the entitlement message; a text submission
    does so when the quota check lets it through and ends with the quota
    signal otherwise.  In all these cases the offline resolver is not
    called and the history and the stored ledger are unchanged. *)
Theorem offline_without_entitlement (env : Env) (blob : Blob) (inputText : jsstring)
    (w : World) :
  isOnline (app w) = false ->
  is_premium (user (app w)) && is_downloaded (user (app w)) (targetLangCode (app w)) = false ->
  let wv := snd (processAudio env blob w) in
  let wt := snd (handleTextTranslate env inputText w) in
  (EntitlementRequired wv /\ trace wv = trace w
   /\ localStorage wv = localStorage w /\ history (app wv) = history (app w))
  /\ (trace wt = trace w ++ [QuotaChecked] /\ offline_calls (trace wt) = offline_calls (trace w)
      /\ localStorage wt = localStorage w /\ history (app wt) = history (app w))
  /\ (fst (checkUsageLimit env w) = Normal true -> EntitlementRequired wt)
  /\ (fst (checkUsageLimit env w) = Normal false ->
      QuotaExceeded wt /\ error (app wt) = error (app w)).
Proof.
  intros Off NE wv wt. subst wv wt.
  unfold processAudio, handleTextTranslate, EntitlementRequired, QuotaExceeded,
    offline_calls.
  unfold_M. rewrite !checkUsageLimit_run. proj_simpl.
  rewrite Off. proj_simpl.
  destruct (is_premium (user (app w))) eqn:P; cbn [andb] in NE.
  - rewrite NE. proj_simpl. rewrite Off, P. proj_simpl. rewrite NE. proj_simpl.
    rewrite flat_map_app; cbn [flat_map app]; rewrite app_nil_r.
    split; [split; [right; right; left; reflexivity | repeat split]|].
    split; [repeat split|].
    split; [intros _; right; right; right; reflexivity | intros D; discriminate D].
  - proj_simpl.
    destruct (effective_count (today env) (gv_usage (localStorage w)) <? 3)%Z;
      proj_simpl; rewrite ?Off, ?P; proj_simpl;
      rewrite flat_map_app; cbn [flat_map app]; rewrite app_nil_r;
      (split; [split; [left; reflexivity | repeat split]|]);
      (split; [repeat split|]).
    + split; [intros _; right; left; reflexivity | intros D; discriminate D].
    + split; [intros D; discriminate D | intros _; split; reflexivity].
Qed.


(** *** Dispatcher: failing capability *)

Lemma writes_app (t1 t2 : list Event) : writes (t1 ++ t2) = writes t1 ++ writes t2.
Proof. apply flat_map_app. Qed.



(** *** Dispatcher: voice requests *)

Lemma incrementUsage_run (env : Env) (w : World) :
  incrementUsage env w =
    (Normal tt,
     if is_premium (user (app w)) then w
     else mkWorld (app w)
            (mkStorage
               (Some match gv_usage (localStorage w) with
                     | Some u => mkUsage (date u) (count u + 1)
                     | None => mkUsage (today env) 1
                     end)
               (gv_history (localStorage w)))
            (trace w ++ [StorageSet GV_USAGE])).
Proof.
  unfold incrementUsage. unfold_M. proj_simpl.
  destruct (is_premium (user (app w))); [reflexivity|]. proj_simpl.
  destruct (gv_usage (localStorage w)); reflexivity.
Qed.

Lemma spoken_app (t1 t2 : list Event) : spoken (t1 ++ t2) = spoken t1 ++ spoken t2.
Proof. apply flat_map_app. Qed.

Lemma offline_calls_app (t1 t2 : list Event) :
  offline_calls (t1 ++ t2) = offline_calls t1 ++ offline_calls t2.
Proof. apply flat_map_app. Qed.

(** The resolver at the phrase of the offline voice path. *)
Lemma resolve_help_me (c : SupportedLanguageCode) :
  resolve_spec (utf16 "Help me") c =
    match lookup (code_str c) help_me_entry with
    | Some t => t
    | None => offline_marker (utf16 "Help me")
    end.
Proof.
  unfold resolve_spec, normalize_spec.
  rewrite toLowerCase_ascii by (vm_compute; reflexivity).
  destruct c; vm_compute; reflexivity.
Qed.

(** The offline voice path, for a premium user with the pack of the
    target language, when both languages of the pair are in the table. *)
Lemma processAudio_offline_run (env : Env) (blob : Blob) (w : World)
    (lm lt : LanguageOption) :
  motherLang (app w) = Some lm ->
  targetLang (app w) = Some lt ->
  isOnline (app w) = false ->
  is_premium (user (app w)) = true ->
  is_downloaded (user (app w)) (targetLangCode (app w)) = true ->
  let r := mkResult (utf16 "Help me") (utf16 "en")
                    (resolve_spec (utf16 "Help me") (targetLangCode (app w))) (Some []) in
  let h := firstn 50 (newItem_of lm lt (motherLangCode (app w)) env r :: history (app w)) in
  processAudio env blob w =
    (Normal tt,
     mkWorld (mkApp (user (app w)) (showPremiumModal (app w)) h (mode (app w))
                    (motherLangCode (app w)) (targetLangCode (app w)) false
                    (Some r) None false)
             (mkStorage (gv_usage (localStorage w)) (Some h))
             (trace w ++ [CalledTranslateOffline (utf16 "Help me") (targetLangCode (app w))]
                      ++ [StorageSet GV_HISTORY]
                      ++ if mode_eqb (mode (app w)) voice_to_voice
                         then [CalledSpeakText (translated_text r) (ttsLocale lt)] else [])).
Proof.
  intros Hm Ht Off P D r h.
  unfold processAudio. unfold_M. proj_simpl. rewrite Off, P. proj_simpl.
  rewrite D. proj_simpl.
  unfold try_catch_finally. unfold_M. rewrite translateOffline_resolve. fold r.
  erewrite addToHistory_run by (unfold motherLang, targetLang in *; proj_simpl; eassumption).
  proj_simpl. unfold prop. unfold targetLang in *. proj_simpl. rewrite Ht.
  unfold_M. subst h.
  destruct (mode_eqb (mode (app w)) voice_to_voice); proj_simpl;
    rewrite <- ?app_assoc; cbn [app]; rewrite ?app_nil_r; reflexivity.
Qed.


(** The cloud voice path when the payload is packaged and the capability
    answers [r]. *)
Lemma processAudio_cloud_run (env : Env) (blob : Blob) (w : World)
    (lm lt : LanguageOption) (base64Audio : jsstring) (r : TranslationResult) :
  motherLang (app w) = Some lm ->
  targetLang (app w) = Some lt ->
  isOnline (app w) = true ->
  blobToBase64 env blob = Normal base64Audio ->
  translateAudio env base64Audio (name lt) (name lm) (blob_type blob) = Normal r ->
  let h := firstn 50 (newItem_of lm lt (motherLangCode (app w)) env r :: history (app w)) in
  let ttsLang := if eqb (detected_language r) (code_str (motherLangCode (app w)))
                 then lt else lm in
  processAudio env blob w =
    (Normal tt,
     mkWorld (mkApp (user (app w)) (showPremiumModal (app w)) h (mode (app w))
                    (motherLangCode (app w)) (targetLangCode (app w)) false
                    (Some r) None true)
             (mkStorage
                (if is_premium (user (app w)) then gv_usage (localStorage w)
                 else Some match gv_usage (localStorage w) with
                           | Some u => mkUsage (date u) (count u + 1)
                           | None => mkUsage (today env) 1
                           end)
                (Some h))
             (trace w ++ [CalledTranslateAudio base64Audio (name lt) (name lm) (blob_type blob)]
                      ++ [StorageSet GV_HISTORY]
                      ++ (if is_premium (user (app w)) then [] else [StorageSet GV_USAGE])
                      ++ if mode_eqb (mode (app w)) voice_to_voice
                         then [CalledSpeakText (translated_text r) (ttsLocale ttsLang)] else [])).
Proof.
  intros Hm Ht On B T h ttsLang.
  unfold processAudio. unfold_M. proj_simpl. rewrite On. proj_simpl.
  unfold try_catch_finally. unfold_M. rewrite B.
  unfold prop at 1 2. unfold motherLang, targetLang in *. proj_simpl.
  rewrite Hm, Ht. unfold_M. rewrite T.
  erewrite addToHistory_run by (unfold motherLang, targetLang; proj_simpl; eassumption).
  rewrite incrementUsage_run. proj_simpl. fold h.
  unfold prop. subst ttsLang.
  destruct (is_premium (user (app w)));
    destruct (mode_eqb (mode (app w)) voice_to_voice); proj_simpl;
    try destruct (eqb (detected_language r) (code_str (motherLangCode (app w))));
    rewrite ?Hm, ?Ht; unfold_M; proj_simpl;
    rewrite <- ?app_assoc; cbn [app]; rewrite ?app_nil_r; reflexivity.
Qed.



(** C9, as amended.  In [voice-to-voice] mode a successful cloud
    translation is spoken with the locale of the target language when the
    detected language is the mother-language code and with the locale of
    the mother language otherwise; a successful offline translation,
    whose detected language is always [en], is spoken with the locale of
    the target language whatever the mother language is.  In any other
    mode nothing is spoken. *)
Theorem voice_playback (env : Env) (blob : Blob) (w : World) (lm lt : LanguageOption) :
  motherLang (app w) = Some lm ->
  targetLang (app w) = Some lt ->
  let wv := snd (processAudio env blob w) in
  (forall base64Audio r,
     isOnline (app w) = true ->
     blobToBase64 env blob = Normal base64Audio ->
     translateAudio env base64Audio (name lt) (name lm) (blob_type blob) = Normal r ->
     translationResult (app wv) = Some r
     /\ spoken (trace wv) =
          spoken (trace w) ++
          if mode_eqb (mode (app w)) voice_to_voice
          then [(translated_text r,
                 ttsLocale (if eqb (detected_language r) (code_str (motherLangCode (app w)))
                            then lt else lm))]
          else [])
  /\ (isOnline (app w) = false ->
      is_premium (user (app w)) = true ->
      is_downloaded (user (app w)) (targetLangCode (app w)) = true ->
      exists r,
        translationResult (app wv) = Some r
        /\ detected_language r = utf16 "en"
        /\ spoken (trace wv) =
             spoken (trace w) ++
             if mode_eqb (mode (app w)) voice_to_voice
             then [(translated_text r, ttsLocale lt)] else []).
Proof.
  intros Hm Ht wv. subst wv. split.
  - intros b64 r On B T.
    rewrite (processAudio_cloud_run env blob w Hm Ht On B T).
    cbv zeta. proj_simpl. split; [reflexivity|].
    rewrite !spoken_app. cbn [spoken flat_map app].
    destruct (is_premium (user (app w)));
      destruct (mode_eqb (mode (app w)) voice_to_voice);
      cbn [flat_map app]; reflexivity.
  - intros Off P D.
    rewrite (processAudio_offline_run env blob w Hm Ht Off P D).
    cbv zeta. proj_simpl. eexists. split; [reflexivity|].
    split; [reflexivity|].
    rewrite !spoken_app. cbn [spoken flat_map app translated_text].
    destruct (mode_eqb (mode (app w)) voice_to_voice);
      cbn [flat_map app]; reflexivity.
Qed.

(** C10, as amended.  For a premium user with the pack of the target
    language, an offline voice request calls the offline resolver with the
    text [Help me] and the target code, whatever the recorded payload is;
    the translation shown is the [help me] entry for the target code when
    the dictionary has one, and the marker around [Help me] when it has
    none. *)
Theorem offline_voice_fixed_phrase (env : Env) (blob blob' : Blob) (w : World)
    (lm lt : LanguageOption) :
  motherLang (app w) = Some lm ->
  targetLang (app w) = Some lt ->
  isOnline (app w) = false ->
  is_premium (user (app w)) = true ->
  is_downloaded (user (app w)) (targetLangCode (app w)) = true ->
  let wv := snd (processAudio env blob w) in
  fst (processAudio env blob w) = Normal tt
  /\ offline_calls (trace wv) =
       offline_calls (trace w) ++ [(utf16 "Help me", targetLangCode (app w))]
  /\ processAudio env blob' w = processAudio env blob w
  /\ error (app wv) = None
  /\ (exists r, translationResult (app wv) = Some r
        /\ original_text r = utf16 "Help me"
        /\ translated_text r =
             match lookup (code_str (targetLangCode (app w))) help_me_entry with
             | Some t => t
             | None => offline_marker (utf16 "Help me")
             end)
  /\ (forall c, In c [Code_id; Code_es; Code_ja; Code_zh; Code_en] ->
                lookup (code_str c) help_me_entry <> None)
  /\ (forall c, In c [Code_ko; Code_nl; Code_ar] ->
                lookup (code_str c) help_me_entry = None).
Proof.
  intros Hm Ht Off P D wv. subst wv.
  rewrite !(processAudio_offline_run env _ w Hm Ht Off P D).
  cbv zeta. proj_simpl.
  split; [reflexivity|]. split.
  { rewrite !offline_calls_app. cbn [offline_calls flat_map app].
    destruct (mode_eqb (mode (app w)) voice_to_voice);
      cbn [flat_map app]; rewrite ?app_nil_r; reflexivity. }
  split; [reflexivity|]. split; [reflexivity|]. split.
  { eexists. split; [reflexivity|]. split; [reflexivity|].
    cbn [translated_text]. apply resolve_help_me. }
  split; intros c I; cbn [In] in I.
  - destruct I as [<-|[<-|[<-|[<-|[<-|[]]]]]]; vm_compute; discriminate.
  - destruct I as [<-|[<-|[<-|[]]]]; vm_compute; reflexivity.
Qed.


(** ** Further properties of the code *)

(** *** Error classifier and error messages *)

(** X1. A failure that the classifier has produced is left as it is when
    it is classified again: the three messages it builds match none of its
    own rules. *)
Theorem handleGenAIError_idempotent (raw : JSError) :
  handleGenAIError (handleGenAIError raw) = handleGenAIError raw.
Proof.
  assert (S : handleGenAIError (new_Error SAFETY_BLOCK) = new_Error SAFETY_BLOCK)
    by (vm_compute; reflexivity).
  assert (L : handleGenAIError (new_Error LIMIT_REACHED) = new_Error LIMIT_REACHED)
    by (vm_compute; reflexivity).
  assert (R : handleGenAIError (new_Error RECITATION_BLOCK) = new_Error RECITATION_BLOCK)
    by (vm_compute; reflexivity).
  remember (handleGenAIError raw) as c eqn:Hc.
  unfold handleGenAIError in Hc.
  destruct (includes (or_default (err_message raw) []) (utf16 "SAFETY")) eqn:E1;
    [subst c; exact S|].
  destruct (includes (or_default (err_message raw) []) (utf16 "429")
            || includes (or_default (err_message raw) []) (utf16 "quota")) eqn:E2;
    [subst c; exact L|].
  destruct (includes (or_default (err_message raw) []) (utf16 "RECITATION")) eqn:E3;
    [subst c; exact R|].
  subst c. unfold handleGenAIError. rewrite E1, E2, E3. reflexivity.
Qed.

(** X2. Whatever makes a cloud call fail (the request, an empty response or
    the parsing of the response), the value it throws has gone through the
    classifier. *)
Theorem cloud_call_failure_classified (env : Env) (req : CloudRequest) (e : JSError) :
  cloud_call env req = Throw e ->
  (exists raw, e = handleGenAIError raw) /\ handleGenAIError e = e.
Proof.
  unfold cloud_call. intros H.
  assert (X : exists raw, e = handleGenAIError raw).
  { destruct (generateContent env req) as [[t|]|e0].
    - destruct (truthy t).
      + destruct (JSON_parse env t) as [r|e1]; [discriminate|].
        injection H as <-. now exists e1.
      + injection H as <-. now eexists.
    - injection H as <-. now eexists.
    - injection H as <-. now exists e0. }
  split; [exact X|]. destruct X as [raw ->]. apply handleGenAIError_idempotent.
Qed.

(** X3. A response without text, or with an empty text, makes the cloud
    call throw the empty-response error, unchanged by the classifier and
    without parsing anything; when the browser is online this message is the
    one shown. *)
Theorem cloud_call_empty_response (env : Env) (req : CloudRequest) (text : option jsstring) :
  generateContent env req = Normal text ->
  falsy text = true ->
  cloud_call env req = Throw (new_Error EMPTY_RESPONSE)
  /\ (navigator_onLine env = true ->
      parseErrorMessage env (new_Error EMPTY_RESPONSE) = EMPTY_RESPONSE).
Proof.
  intros G F. split.
  - unfold cloud_call. rewrite G.
    destruct text as [t|]; cbn [falsy] in F.
    + apply negb_true_iff in F. rewrite F. vm_compute. reflexivity.
    + vm_compute. reflexivity.
  - intros On. unfold parseErrorMessage. rewrite On. vm_compute. reflexivity.
Qed.


(** X5. The message computed for a failure is never the empty string. *)
Theorem parseErrorMessage_nonempty (env : Env) (err : JSError) :
  truthy (parseErrorMessage env err) = true.
Proof.
  unfold parseErrorMessage.
  destruct (negb (navigator_onLine env)); [vm_compute; reflexivity|].
  destruct (includes _ (utf16 "Safety")); [vm_compute; reflexivity|].
  destruct (includes _ (utf16 "Limit")); [vm_compute; reflexivity|].
  unfold or_default at 1.
  destruct (truthy (or_default (err_message err) [])) eqn:T;
    [exact T | vm_compute; reflexivity].
Qed.


(** *** Offline resolver *)

Lemma offline_marker_truthy (text : jsstring) : truthy (offline_marker text) = true.
Proof. reflexivity. Qed.

(** The entry the reference algorithm settles on is an entry of the
    dictionary. *)
Lemma resolve_spec_cases (text : jsstring) (c : SupportedLanguageCode) :
  resolve_spec text c = offline_marker text
  \/ exists k e t,
       In (k, e) OFFLINE_DICTIONARY
       /\ includes (normalize_spec text) k = true
       /\ lookup (code_str c) e = Some t
       /\ resolve_spec text c = t.
Proof.
  unfold resolve_spec. set (n := normalize_spec text).
  destruct (lookup n OFFLINE_DICTIONARY) as [e|] eqn:L.
  - destruct (lookup (code_str c) e) as [t|] eqn:T; [|now left].
    right. exists n, e, t. repeat split; auto.
    + now apply lookup_In.
    + apply includes_refl.
  - destruct (find _ (keys OFFLINE_DICTIONARY)) as [k|] eqn:Fk; [|now left].
    apply find_some in Fk as [I Ik].
    destruct (In_keys_lookup _ _ I) as [e Le]. rewrite Le.
    destruct (lookup (code_str c) e) as [t|] eqn:T; [|now left].
    right. exists k, e, t. repeat split; auto. now apply lookup_In.
Qed.

(** X6. The translation the offline resolver returns is never the empty
    string: it is a dictionary translation or the marker around the text. *)
Theorem translateOffline_nonempty (text : jsstring) (c : SupportedLanguageCode) :
  exists r, translateOffline text c = Normal r /\ truthy (translated_text r) = true.
Proof.
  eexists. split; [apply translateOffline_resolve|]. cbn [translated_text].
  destruct (resolve_spec_cases text c) as [->|(k & e & t & I & _ & T & ->)].
  - apply offline_marker_truthy.
  - now apply (entry_truthy c t I).
Qed.

(** X7. For the target codes [ko], [nl] and [ar], which no entry of the
    dictionary holds, the resolver returns the marker around the text for
    every text, also for the phrases of the dictionary. *)
Theorem translateOffline_without_language (text : jsstring) (c : SupportedLanguageCode) :
  In c [Code_ko; Code_nl; Code_ar] ->
  exists r, translateOffline text c = Normal r
            /\ translated_text r = offline_marker text.
Proof.
  intros Hc. eexists. split; [apply translateOffline_resolve|]. cbn [translated_text].
  destruct (resolve_spec_cases text c) as [E|(k & e & t & I & _ & T & _)]; [exact E|].
  exfalso.
  assert (A : forallb (fun kv => is_none (lookup (code_str c) (snd kv)))
                      OFFLINE_DICTIONARY = true).
  { cbn [In] in Hc. destruct Hc as [<-|[<-|[<-|[]]]]; vm_compute; reflexivity. }
  rewrite forallb_forall in A. specialize (A _ I). cbn [snd] in A.
  rewrite T in A. discriminate.
Qed.

(** X8. For the five languages of the dictionary the resolver returns the
    marker exactly when no key of the dictionary occurs in the normalized
    text: if one occurs the result is the translation, for the target code,
    of a key that occurs in it. *)
Theorem translateOffline_marker_iff (text : jsstring) (c : SupportedLanguageCode) :
  In c [Code_id; Code_es; Code_ja; Code_zh; Code_en] ->
  let n := replace_marks (trim (toLowerCase text)) in
  ((forall k, In k (keys OFFLINE_DICTIONARY) -> includes n k = false) ->
   resolve_spec text c = offline_marker text)
  /\ ((exists k, In k (keys OFFLINE_DICTIONARY) /\ includes n k = true) ->
      exists k e, In (k, e) OFFLINE_DICTIONARY
                  /\ includes n k = true
                  /\ lookup (code_str c) e = Some (resolve_spec text c)
                  /\ resolve_spec text c <> offline_marker text).
Proof.
  intros Hc n.
  assert (A : forallb (fun kv => negb (is_none (lookup (code_str c) (snd kv))))
                      OFFLINE_DICTIONARY = true).
  { cbn [In] in Hc. destruct Hc as [<-|[<-|[<-|[<-|[<-|[]]]]]]; vm_compute; reflexivity. }
  rewrite forallb_forall in A.
  assert (M : forall k e t, In (k, e) OFFLINE_DICTIONARY ->
                lookup (code_str c) e = Some t -> t <> offline_marker text).
  { intros k e t I T E. subst t.
    assert (B : forallb (fun kv =>
                  forallb (fun c' => match lookup (code_str c') (snd kv) with
                                     | Some t => negb (startsWith t (utf16 "["))
                                     | None => true
                                     end) all_codes) OFFLINE_DICTIONARY = true)
      by (vm_compute; reflexivity).
    rewrite forallb_forall in B. specialize (B _ I). cbn [snd] in B.
    rewrite forallb_forall in B. specialize (B c (In_all_codes c)).
    rewrite T in B. discriminate B. }
  split.
  - intros No.
    destruct (resolve_spec_cases text c) as [E|(k & e & t & I & Ik & _)]; [exact E|].
    assert (Z : includes n k = false).
    { apply No. unfold keys. apply in_map_iff. now exists (k, e). }
    unfold normalize_spec in Ik. subst n. congruence.
  - intros (k & I & Ik).
    unfold resolve_spec, normalize_spec. fold n.
    destruct (lookup n OFFLINE_DICTIONARY) as [e|] eqn:L.
    + pose proof (lookup_In _ _ L) as Ie. pose proof (A _ Ie) as Ae. cbn [snd] in Ae.
      destruct (lookup (code_str c) e) as [t|] eqn:T; [|discriminate].
      exists n, e. repeat split; auto; [apply includes_refl | now apply (M n e)].
    + destruct (find (fun k0 => includes n k0) (keys OFFLINE_DICTIONARY)) as [k'|] eqn:Fk.
      * apply find_some in Fk as [I' Ik'].
        destruct (In_keys_lookup _ _ I') as [e Le]. rewrite Le.
        pose proof (lookup_In _ _ Le) as Ie. pose proof (A _ Ie) as Ae. cbn [snd] in Ae.
        destruct (lookup (code_str c) e) as [t|] eqn:T; [|discriminate].
        exists k', e. repeat split; auto. now apply (M k' e).
      * pose proof (find_none _ _ Fk k I) as Z. cbn beta in Z.
        rewrite Ik in Z. discriminate.
Qed.

(** X9. Every phrase of the dictionary is its own normal form and is
    resolved to its own entry: for each target code the result is the
    translation the entry holds, the marker when it holds none, and
    resolving into [en] gives the phrase back. *)
Theorem dictionary_phrases_resolve (k : jsstring) (e : list (jsstring * jsstring))
    (c : SupportedLanguageCode) :
  In (k, e) OFFLINE_DICTIONARY ->
  replace_marks (trim (toLowerCase k)) = k
  /\ resolve_spec k c = or_default (lookup (code_str c) e) (offline_marker k)
  /\ resolve_spec k Code_en = k.
Proof.
  intros I. unfold resolve_spec, normalize_spec.
  unfold OFFLINE_DICTIONARY in I. cbn [In] in I.
  repeat (destruct I as [I|I];
          [injection I as <- <-;
           rewrite !toLowerCase_ascii by (vm_compute; reflexivity);
           destruct c; vm_compute; repeat split|]).
  contradiction.
Qed.


(** *** History store: delete, clear, and runs of operations *)

(** An append either throws before it touches anything, when the language
    it reads is not in the table, or puts an item for the result at the
    front and cuts at 50. *)
Lemma addToHistory_cases (env : Env) (r : TranslationResult) (w : World) :
  addToHistory env r w = (Throw TypeError_undefined, w)
  \/ exists item,
       item_result item = r /\ id item = randomUUID env
       /\ addToHistory env r w =
            (Normal tt,
             let h := firstn 50 (item :: history (app w)) in
             mkWorld (with_history h (app w))
                     (mkStorage (gv_usage (localStorage w)) (Some h))
                     (trace w ++ [StorageSet GV_HISTORY])).
Proof.
  unfold addToHistory, prop, setHistory. unfold_M. proj_simpl.
  destruct (if eqb (detected_language r) (code_str (motherLangCode (app w)))
            then targetLang (app w) else motherLang (app w)) as [l|].
  - right. eexists. split; [|split; [|reflexivity]]; reflexivity.
  - left. destruct w; reflexivity.
Qed.

Lemma deleteHistoryItem_run (itemId : jsstring) (w : World) :
  deleteHistoryItem itemId w =
    (Normal tt,
     let h := filter (fun i => negb (eqb (id i) itemId)) (history (app w)) in
     mkWorld (with_history h (app w))
             (mkStorage (gv_usage (localStorage w)) (Some h))
             (trace w ++ [StorageSet GV_HISTORY])).
Proof. reflexivity. Qed.

(** X10. Deleting by identifier removes every item with that identifier
    and nothing else, keeps the order of the others, and stores the
    result; deleting an identifier that no item has leaves the history as it
    is. *)
Theorem deleteHistoryItem_removes (itemId : jsstring) (w : World) :
  let w' := snd (deleteHistoryItem itemId w) in
  (forall i, In i (history (app w')) <-> In i (history (app w)) /\ id i <> itemId)
  /\ List.length (history (app w')) <= List.length (history (app w))
  /\ ((forall i, In i (history (app w)) -> id i <> itemId) ->
      history (app w') = history (app w))
  /\ gv_history (localStorage w') = Some (history (app w'))
  /\ gv_usage (localStorage w') = gv_usage (localStorage w).
Proof.
  rewrite deleteHistoryItem_run. cbv zeta. proj_simpl.
  split; [|split; [|split; [|split; reflexivity]]].
  - intros i. rewrite filter_In. split; intros [I N]; (split; [exact I|]).
    + apply negb_true_iff, jsstring_eqb_neq in N. exact N.
    + apply negb_true_iff, jsstring_eqb_neq. exact N.
  - apply filter_length_le.
  - intros F. induction (history (app w)) as [|x h IH]; [reflexivity|].
    cbn [filter]. assert (N : id x <> itemId) by (apply F; now left).
    apply jsstring_eqb_neq in N. rewrite N. cbn [negb]. f_equal.
    apply IH. intros i I. apply F. now right.
Qed.


Lemma filter_all_true {A : Type} (f : A -> bool) (l : list A) :
  (forall x, In x l -> f x = true) -> filter f l = l.
Proof.
  induction l as [|x l IH]; intros F; [reflexivity|].
  cbn [filter]. rewrite (F x) by now left. f_equal. apply IH.
  intros y I. apply F. now right.
Qed.

(** X11. Appending a result and then deleting the item by its new
    identifier, when no older item has that identifier, gives back the first
    49 items of the history: the history as it was when it had fewer than 50
    items, and the history without its oldest item when it was full. *)
Theorem append_then_delete (env : Env) (r : TranslationResult) (w : World)
    (lm lt : LanguageOption) :
  motherLang (app w) = Some lm ->
  targetLang (app w) = Some lt ->
  (forall i, In i (history (app w)) -> id i <> randomUUID env) ->
  let w' := snd (deleteHistoryItem (randomUUID env) (snd (addToHistory env r w))) in
  history (app w') = firstn 49 (history (app w))
  /\ (List.length (history (app w)) < 50 -> history (app w') = history (app w))
  /\ (List.length (history (app w)) = 50 ->
      history (app w') = removelast (history (app w)))
  /\ gv_history (localStorage w') = Some (history (app w')).
Proof.
  intros Hm Ht Fresh w'. subst w'.
  rewrite (addToHistory_run env r w Hm Ht), deleteHistoryItem_run.
  cbv zeta. proj_simpl.
  assert (E : filter (fun i => negb (eqb (id i) (randomUUID env)))
                (firstn 50 (newItem_of lm lt (motherLangCode (app w)) env r
                            :: history (app w)))
              = firstn 49 (history (app w))).
  { change 50 with (S 49). rewrite firstn_cons. cbn [filter].
    unfold newItem_of at 1. cbn [id]. rewrite jsstring_eqb_refl. cbn [negb].
    apply filter_all_true. intros x I.
    apply negb_true_iff, jsstring_eqb_neq, Fresh.
    rewrite <- (firstn_skipn 49 (history (app w))). apply in_or_app. now left. }
  rewrite E. split; [reflexivity|]. split; [|split; [|reflexivity]].
  - intros L. apply firstn_all2. lia.
  - intros L. rewrite removelast_firstn_len, L. reflexivity.
Qed.

Lemma run_op_invariant (op : HistoryOp) (w : World) :
  history_invariant w -> history_invariant (snd (run_op op w)).
Proof.
  intros [L S]. unfold history_invariant. destruct op as [env r|itemId|[|]]; cbn [run_op].
  - destruct (addToHistory_cases env r w) as [E|(item & _ & _ & E)]; rewrite E.
    + now split.
    + cbv zeta. proj_simpl. split; [apply firstn_le_length|reflexivity].
  - rewrite deleteHistoryItem_run. cbv zeta. proj_simpl. split; [|reflexivity].
    eapply Nat.le_trans; [apply filter_length_le|exact L].
  - unfold clearHistory, setHistory. proj_simpl. split; [cbn; lia|reflexivity].
  - unfold clearHistory, ret. now split.
Qed.

(** X12. Whatever appends, deletions and clearings follow one another,
    a history of at most 50 items whose stored copy is up to date stays
    one; and whatever the history was, it has at most 50 items right after
    an append that went through. *)
Theorem history_ops_keep_invariant (ops : list HistoryOp) (w : World) :
  (history_invariant w -> history_invariant (run_ops ops w))
  /\ (forall env r, fst (addToHistory env r w) = Normal tt ->
        history_invariant (run_ops ops (snd (addToHistory env r w)))).
Proof.
  assert (G : forall w0, history_invariant w0 -> history_invariant (run_ops ops w0)).
  { induction ops as [|op ops IH]; intros w0 I; [exact I|].
    cbn [run_ops]. apply IH. now apply run_op_invariant. }
  split; [apply G|].
  intros env r N. apply G.
  destruct (addToHistory_cases env r w) as [E|(item & _ & _ & E)];
    rewrite E in *; [discriminate N|].
  cbv zeta. unfold history_invariant. proj_simpl.
  split; [apply firstn_le_length|reflexivity].
Qed.


(** *** Language pair, offline packs and logout *)

Lemma code_eqb_eq (a b : SupportedLanguageCode) : code_eqb a b = true <-> a = b.
Proof. destruct a, b; cbn; split; intros H; try reflexivity; discriminate H. Qed.

(** X13. Language detection on the pair the component starts with
    ([en], [id]) always ends with two different languages: the mother
    language becomes the table entry whose code is the text of
    [navigator.language] before its first hyphen, with [en] as target when
    that is [id] and [id] otherwise; when the table has no such entry the
    pair stays as it was.  Nothing else changes. *)
Theorem detectLanguage_pair (navigator_language : jsstring) (w : World) :
  motherLangCode (app w) = Code_en ->
  targetLangCode (app w) = Code_id ->
  let w' := snd (detectLanguage navigator_language w) in
  motherLangCode (app w') <> targetLangCode (app w')
  /\ (forall l,
        find (fun l => eqb (code_str (code l)) (before_hyphen navigator_language))
             SUPPORTED_LANGUAGES = Some l ->
        motherLangCode (app w') = code l
        /\ code_str (code l) = before_hyphen navigator_language
        /\ targetLangCode (app w') = if code_eqb (code l) Code_id then Code_en else Code_id)
  /\ (find (fun l => eqb (code_str (code l)) (before_hyphen navigator_language))
           SUPPORTED_LANGUAGES = None ->
      w' = w)
  /\ history (app w') = history (app w)
  /\ user (app w') = user (app w)
  /\ localStorage w' = localStorage w
  /\ trace w' = trace w.
Proof.
  intros Hm Ht. unfold detectLanguage.
  destruct (find _ SUPPORTED_LANGUAGES) as [l|] eqn:F.
  - apply find_some in F as [_ F]. apply jsstring_eqb_eq in F.
    unfold setMotherLangCode, setTargetLangCode. unfold_M. proj_simpl.
    destruct (code l) eqn:C; cbn in F |- *; proj_simpl; rewrite ?Ht;
      (split; [discriminate|]);
      (split; [intros l' E; injection E as <-; rewrite C; cbn; auto|]);
      (split; [intros E; discriminate E|]); repeat split.
  - unfold ret. cbn [snd]. rewrite Hm, Ht.
    split; [discriminate|]. split; [intros l E; discriminate E|].
    repeat split.
Qed.

(** X14. Swapping exchanges the two languages and drops the translation
    on display; a second swap brings the pair back.  The error on display,
    the history and the stored data are not touched. *)
Theorem swapLanguages_exchanges (w : World) :
  let w1 := snd (swapLanguages w) in
  let w2 := snd (swapLanguages w1) in
  motherLangCode (app w1) = targetLangCode (app w)
  /\ targetLangCode (app w1) = motherLangCode (app w)
  /\ translationResult (app w1) = None
  /\ motherLangCode (app w2) = motherLangCode (app w)
  /\ targetLangCode (app w2) = targetLangCode (app w)
  /\ error (app w1) = error (app w)
  /\ history (app w1) = history (app w)
  /\ localStorage w1 = localStorage w
  /\ trace w1 = trace w.
Proof. cbv zeta. unfold swapLanguages. repeat split. Qed.

Lemma handleDownloadPack_run (c : SupportedLanguageCode) (w : World) (u : User) :
  user (app w) = Some u ->
  handleDownloadPack c w =
    (Normal tt,
     if is_downloaded (Some u) c then w
     else mkWorld
            (mkApp (Some (mkUser (email u) (user_name u) (isPremium u)
                            (Some (match downloadedLanguages u with
                                   | Some ls => ls | None => [] end ++ [c]))))
                   (showPremiumModal (app w)) (history (app w)) (mode (app w))
                   (motherLangCode (app w)) (targetLangCode (app w)) (isLoading (app w))
                   (translationResult (app w)) (error (app w)) (isOnline (app w)))
            (localStorage w) (trace w)).
Proof.
  intros U. unfold handleDownloadPack, setUser, is_downloaded. unfold_M. proj_simpl.
  rewrite U.
  destruct (downloadedLanguages u) as [ls|]; cbn [existsb negb];
    [destruct (existsb (code_eqb c) ls)|]; reflexivity.
Qed.

Lemma existsb_code_app (c' c : SupportedLanguageCode) (ls : list SupportedLanguageCode) :
  existsb (code_eqb c') (ls ++ [c]) = existsb (code_eqb c') ls || code_eqb c' c.
Proof.
  rewrite existsb_app. cbn [existsb]. now rewrite orb_false_r.
Qed.

(** X15. For a signed-in user, downloading a pack makes that language
    downloaded and changes the status of no other language; the premium flag
    and the stored data stay as they are, and downloading again changes
    nothing.  Without a user nothing happens. *)
Theorem handleDownloadPack_adds (c : SupportedLanguageCode) (w : World) :
  let w' := snd (handleDownloadPack c w) in
  (user (app w) = None -> w' = w)
  /\ (user (app w) <> None -> is_downloaded (user (app w')) c = true)
  /\ (forall c', c' <> c ->
        is_downloaded (user (app w')) c' = is_downloaded (user (app w)) c')
  /\ is_premium (user (app w')) = is_premium (user (app w))
  /\ localStorage w' = localStorage w
  /\ history (app w') = history (app w)
  /\ snd (handleDownloadPack c w') = w'.
Proof.
  cbv zeta. destruct (user (app w)) as [u|] eqn:U.
  - rewrite (handleDownloadPack_run c w U).
    destruct (is_downloaded (Some u) c) eqn:D; cbn [snd].
    + rewrite (handleDownloadPack_run c w U), D, U.
      split; [discriminate|]. repeat split; auto.
    + proj_simpl.
      assert (D' : is_downloaded
                     (Some (mkUser (email u) (user_name u) (isPremium u)
                        (Some (match downloadedLanguages u with
                               | Some ls => ls | None => [] end ++ [c])))) c = true).
      { cbn [is_downloaded downloadedLanguages]. rewrite existsb_code_app.
        replace (code_eqb c c) with true by (symmetry; now apply code_eqb_eq).
        apply orb_true_r. }
      split; [discriminate|]. split; [intros _; exact D'|].
      split; [|split; [reflexivity|split; [reflexivity|split; [reflexivity|]]]].
      * intros c' N. cbn [is_downloaded downloadedLanguages].
        rewrite existsb_code_app.
        replace (code_eqb c' c) with false
          by (symmetry; apply not_true_iff_false; intros E; apply code_eqb_eq in E; auto).
        rewrite orb_false_r. destruct (downloadedLanguages u); reflexivity.
      * erewrite handleDownloadPack_run by reflexivity. rewrite D'. reflexivity.
  - unfold handleDownloadPack. unfold_M. proj_simpl. rewrite U. cbn [snd].
    unfold handleDownloadPack. unfold_M. proj_simpl. rewrite U. cbn [snd].
    split; [reflexivity|]. split; [intros N; now elim N|]. repeat split.
Qed.

(** X16. Logging out removes the user and clears the result and the error
    on display, and nothing else: the history in memory, its stored copy and
    the usage ledger stay, so the next quota check is the one of a
    non-premium user on the ledger that was left. *)
Theorem handleLogout_keeps_stores (env : Env) (w : World) :
  let w' := snd (handleLogout w) in
  user (app w') = None
  /\ translationResult (app w') = None
  /\ error (app w') = None
  /\ history (app w') = history (app w)
  /\ localStorage w' = localStorage w
  /\ trace w' = trace w
  /\ fst (checkUsageLimit env w') =
       Normal (effective_count (today env) (gv_usage (localStorage w)) <? 3)%Z.
Proof.
  cbv zeta. rewrite checkUsageLimit_run.
  unfold handleLogout, handleClearResult, setUser. unfold_M. proj_simpl.
  cbn [is_premium].
  destruct (effective_count (today env) (gv_usage (localStorage w)) <? 3)%Z;
    repeat split.
Qed.


(** *** Requests: what they keep *)

Lemma inv_ret {A : Type} (I : World -> Prop) (a : A) : triple I (ret a) I.
Proof. intros w H. exact H. Qed.

Lemma inv_lift {A : Type} (I : World -> Prop) (c : Completion A) : triple I (lift c) I.
Proof. intros w H. exact H. Qed.

Lemma inv_bind {A B : Type} (I : World -> Prop) (m : M A) (f : A -> M B) :
  triple I m I -> (forall a, triple I (f a) I) -> triple I (bind m f) I.
Proof.
  intros Hm Hf w H. unfold bind. specialize (Hm w H).
  destruct (m w) as [[a|e] w1]; cbn [snd] in *; [now apply Hf|exact Hm].
Qed.

Lemma inv_tcf (I : World -> Prop) (body : M unit) (handler : JSError -> M unit)
    (final : M unit) :
  triple I body I -> (forall e, triple I (handler e) I) -> triple I final I ->
  triple I (try_catch_finally body handler final) I.
Proof.
  intros Hb Hh Hf w H. unfold try_catch_finally. specialize (Hb w H).
  destruct (body w) as [[a|e] w1]; cbn [snd] in Hb.
  - now apply Hf.
  - specialize (Hh e w1 Hb). destruct (handler e w1) as [[a|e2] w2]; cbn [snd] in Hh.
    + now apply Hf.
    + specialize (Hf w2 Hh). destruct (final w2) as [[a|e3] w3]; exact Hf.
Qed.

(** One step of the proof that a handler keeps an invariant: the rule of
    the construct at the head, or [leaf] at a primitive. *)
Ltac inv_step leaf :=
  lazymatch goal with
  | |- triple _ (bind _ _) _ => apply inv_bind; [|intro]
  | |- triple _ (try_catch_finally _ _ _) _ => apply inv_tcf; [|intro|]
  | |- triple _ (ret _) _ => apply inv_ret
  | |- triple _ (lift _) _ => apply inv_lift
  | |- triple _ (prop _ _) _ => unfold prop
  | |- triple _ (if ?b then _ else _) _ => destruct b
  | |- triple _ (match ?x with Some _ => _ | None => _ end) _ => destruct x
  | |- _ => leaf
  end.

Ltac inv_leaf unf :=
  let w := fresh "w" in let H := fresh "H" in
  intros w H; unf; exact H.

Ltac inv_handlers :=
  unfold processAudio, handleTextTranslate, handleImageTranslate,
    addToHistory, checkUsageLimit, incrementUsage; cbv zeta.

(** X17. A translation request of any mode, whatever its outcome, leaves
    the user, the mode, the two language codes and the connectivity flag as
    they were. *)
Theorem requests_keep_session (env : Env) (blob : Blob)
    (inputText base64Image mimeType : jsstring) (w : World) :
  same_session w (snd (processAudio env blob w))
  /\ same_session w (snd (handleTextTranslate env inputText w))
  /\ same_session w (snd (handleImageTranslate env base64Image mimeType w)).
Proof.
  assert (R : same_session w w) by (unfold same_session; repeat split).
  split; [|split].
  - apply (fun T : triple (same_session w) (processAudio env blob) (same_session w) => T w R).
    inv_handlers. repeat inv_step ltac:(inv_leaf ltac:(unfold same_session in *)).
  - apply (fun T : triple (same_session w) (handleTextTranslate env inputText)
                     (same_session w) => T w R).
    inv_handlers. repeat inv_step ltac:(inv_leaf ltac:(unfold same_session in *)).
  - apply (fun T : triple (same_session w) (handleImageTranslate env base64Image mimeType)
                     (same_session w) => T w R).
    inv_handlers. repeat inv_step ltac:(inv_leaf ltac:(unfold same_session in *)).
Qed.


(** X18. For a premium user a request of any mode, whatever its outcome,
    never writes the usage ledger and never opens the premium dialog. *)
Theorem premium_never_charged (env : Env) (blob : Blob)
    (inputText base64Image mimeType : jsstring) (w : World) :
  is_premium (user (app w)) = true ->
  let untouched := fun w' =>
    gv_usage (localStorage w') = gv_usage (localStorage w)
    /\ showPremiumModal (app w') = showPremiumModal (app w)
    /\ ~ In GV_USAGE (writes (skipn (List.length (trace w)) (trace w'))) in
  untouched (snd (processAudio env blob w))
  /\ untouched (snd (handleTextTranslate env inputText w))
  /\ untouched (snd (handleImageTranslate env base64Image mimeType w)).
Proof.
  intros P untouched.
  pose (I := fun w' : World =>
          is_premium (user (app w')) = true
          /\ gv_usage (localStorage w') = gv_usage (localStorage w)
          /\ showPremiumModal (app w') = showPremiumModal (app w)
          /\ exists t, trace w' = trace w ++ t /\ ~ In GV_USAGE (writes t)).
  assert (R : I w).
  { unfold I. repeat split; auto. exists []. rewrite app_nil_r. split; [reflexivity|].
    intros []. }
  assert (U : forall w', I w' -> untouched w').
  { intros w' (_ & A & B & t & T & N). unfold untouched. repeat split; auto.
    rewrite T, skipn_app, skipn_all, Nat.sub_diag. exact N. }
  assert (E : forall e, e <> StorageSet GV_USAGE -> triple I (emit e) I).
  { intros e Ne w' (A & B & C & t & T & N). unfold I, emit. proj_simpl.
    repeat split; auto. exists (t ++ [e]). rewrite T, app_assoc. split; [reflexivity|].
    rewrite writes_app. intros X. apply in_app_or in X as [X|X]; [now apply N|].
    destruct e; cbn in X; try contradiction.
    destruct X as [X|[]]. apply Ne.
    f_equal. exact X. }
  assert (S : forall f, triple I (setHistory f) I).
  { intros f w' (A & B & C & t & T & N). unfold I, setHistory. proj_simpl.
    repeat split; auto. exists (t ++ [StorageSet GV_HISTORY]).
    rewrite T, app_assoc. split; [reflexivity|].
    rewrite writes_app. intros X. apply in_app_or in X as [X|X]; [now apply N|].
    cbn in X. destruct X as [X|[]]. vm_compute in X. discriminate X. }
  assert (C : triple I (checkUsageLimit env) I).
  { intros w' H. pose proof H as (A & _). rewrite checkUsageLimit_run, A.
    apply (E QuotaChecked); [discriminate|exact H]. }
  assert (N : triple I (incrementUsage env) I).
  { intros w' H. pose proof H as (A & _). rewrite incrementUsage_run, A. exact H. }
  assert (L : forall (m : M unit), 
            (exists f, m = modify f /\ forall s, user (f s) = user s
                                       /\ showPremiumModal (f s) = showPremiumModal s) ->
            triple I m I).
  { intros m (f & -> & F) w' (A & B & C' & T). unfold I, modify. proj_simpl.
    destruct (F (app w')) as [F1 F2]. rewrite F1, F2. repeat split; auto. }
  assert (G : triple I get I) by (intros w' H; exact H).
  split; [|split]; apply U.
  - apply (fun T : triple I (processAudio env blob) I => T w R).
    unfold processAudio, handleTextTranslate, handleImageTranslate, addToHistory; cbv zeta.
    repeat inv_step ltac:(first
      [ exact C | exact N | exact G | apply S | apply E; discriminate
      | apply L; eexists; split; [reflexivity|]; intros s; split; reflexivity ]).
  - apply (fun T : triple I (handleTextTranslate env inputText) I => T w R).
    unfold processAudio, handleTextTranslate, handleImageTranslate, addToHistory; cbv zeta.
    repeat inv_step ltac:(first
      [ exact C | exact N | exact G | apply S | apply E; discriminate
      | apply L; eexists; split; [reflexivity|]; intros s; split; reflexivity ]).
  - apply (fun T : triple I (handleImageTranslate env base64Image mimeType) I => T w R).
    unfold processAudio, handleTextTranslate, handleImageTranslate, addToHistory; cbv zeta.
    repeat inv_step ltac:(first
      [ exact C | exact N | exact G | apply S | apply E; discriminate
      | apply L; eexists; split; [reflexivity|]; intros s; split; reflexivity ]).
Qed.


(** *** Requests: how they end *)




(** X20. A text request, online or offline, and an online image request
    of a non-premium user whose effective count has reached 3 only open the
    premium dialog: no capability is called, nothing is written, and the
    result, the error and the loading flag stay as they were. *)
Theorem blocked_by_quota (env : Env) (inputText base64Image mimeType : jsstring)
    (w : World) :
  is_premium (user (app w)) = false ->
  (3 <= effective_count (today env) (gv_usage (localStorage w)))%Z ->
  let blocked :=
    (Normal tt,
     mkWorld (mkApp (user (app w)) true (history (app w)) (mode (app w))
                    (motherLangCode (app w)) (targetLangCode (app w))
                    (isLoading (app w)) (translationResult (app w))
                    (error (app w)) (isOnline (app w)))
             (localStorage w) (trace w ++ [QuotaChecked])) in
  handleTextTranslate env inputText w = blocked
  /\ (isOnline (app w) = true ->
      handleImageTranslate env base64Image mimeType w = blocked).
Proof.
  intros P Q blocked. subst blocked.
  assert (Q' : (effective_count (today env) (gv_usage (localStorage w)) <? 3)%Z = false)
    by (apply Z.ltb_ge; exact Q).
  split.
  - unfold handleTextTranslate. unfold_M. rewrite checkUsageLimit_run, P, Q'. reflexivity.
  - intros On. unfold handleImageTranslate. unfold_M. proj_simpl. rewrite On. proj_simpl.
    rewrite checkUsageLimit_run, P, Q'. proj_simpl. rewrite On. reflexivity.
Qed.


(** *** Requests: successful paths not covered so far *)

(** X21. An offline text request of a premium user with the pack of the
    target language, when both languages of the pair are in the table:
    the resolver is called once with the text as typed, its result is shown
    and put at the front of the history, the usage ledger is not written, no
    cloud capability is called and nothing is spoken. *)
Theorem handleTextTranslate_offline_success (env : Env) (inputText : jsstring) (w : World)
    (lm lt : LanguageOption) :
  motherLang (app w) = Some lm ->
  targetLang (app w) = Some lt ->
  isOnline (app w) = false ->
  is_premium (user (app w)) = true ->
  is_downloaded (user (app w)) (targetLangCode (app w)) = true ->
  let r := mkResult inputText (utf16 "en")
                    (resolve_spec inputText (targetLangCode (app w))) (Some []) in
  let h := firstn 50 (newItem_of lm lt (motherLangCode (app w)) env r :: history (app w)) in
  handleTextTranslate env inputText w =
    (Normal tt,
     mkWorld (mkApp (user (app w)) (showPremiumModal (app w)) h (mode (app w))
                    (motherLangCode (app w)) (targetLangCode (app w)) false
                    (Some r) None false)
             (mkStorage (gv_usage (localStorage w)) (Some h))
             (trace w ++ [QuotaChecked;
                          CalledTranslateOffline inputText (targetLangCode (app w));
                          StorageSet GV_HISTORY])).
Proof.
  intros Hm Ht Off P D r h.
  unfold handleTextTranslate. unfold_M. rewrite checkUsageLimit_run, P.
  proj_simpl. rewrite Off, P. proj_simpl. rewrite D. proj_simpl.
  unfold try_catch_finally. unfold_M. rewrite translateOffline_resolve. fold r.
  erewrite addToHistory_run by (unfold motherLang, targetLang in *; proj_simpl; eassumption).
  proj_simpl. fold h. rewrite <- ?app_assoc. reflexivity.
Qed.




(** *** Requests: calls to the capabilities *)

Lemma capability_calls_snoc (t : list Event) (e : Event) :
  capability_calls (t ++ [e]) =
    capability_calls t +
    match e with
    | CalledTranslateOffline _ _ | CalledTranslateAudio _ _ _ _
    | CalledTranslateText _ _ _ | CalledTranslateImage _ _ _ _ => 1
    | _ => 0
    end.
Proof.
  unfold capability_calls. rewrite filter_app, length_app.
  destruct e; reflexivity.
Qed.

Lemma seq_bind {A B : Type} (P R Q : World -> Prop) (m : M A) (f : A -> M B) :
  triple P m R -> (forall w, R w -> Q w) -> (forall a, triple R (f a) Q) ->
  triple P (bind m f) Q.
Proof.
  intros Hm W Hf w H. unfold bind. specialize (Hm w H).
  destruct (m w) as [[a|e] w1]; cbn [snd] in *; [now apply Hf|now apply W].
Qed.

Lemma seq_tcf (P Q : World -> Prop) (body : M unit) (handler : JSError -> M unit)
    (final : M unit) :
  triple P body Q -> (forall e, triple Q (handler e) Q) -> triple Q final Q ->
  triple P (try_catch_finally body handler final) Q.
Proof.
  intros Hb Hh Hf w H. unfold try_catch_finally. specialize (Hb w H).
  destruct (body w) as [[a|e] w1]; cbn [snd] in Hb.
  - now apply Hf.
  - specialize (Hh e w1 Hb). destruct (handler e w1) as [[a|e2] w2]; cbn [snd] in Hh.
    + now apply Hf.
    + specialize (Hf w2 Hh). destruct (final w2) as [[a|e3] w3]; exact Hf.
Qed.

(** A computation that makes no call keeps every bound on the calls. *)
Lemma neutral_triple {A : Type} (m : M A) (a b : nat) :
  (forall w, capability_calls (trace (snd (m w))) = capability_calls (trace w)) ->
  a <= b -> triple (calls_le a) m (calls_le b).
Proof.
  intros N L w H. unfold calls_le in *. rewrite N. lia.
Qed.

Lemma call_triple (e : Event) (a : nat) :
  match e with
  | CalledTranslateOffline _ _ | CalledTranslateAudio _ _ _ _
  | CalledTranslateText _ _ _ | CalledTranslateImage _ _ _ _ => True
  | _ => False
  end ->
  triple (calls_le a) (emit e) (calls_le (S a)).
Proof.
  intros C w H. unfold calls_le, emit in *. proj_simpl.
  rewrite capability_calls_snoc. destruct e; try contradiction; lia.
Qed.

Lemma checkUsageLimit_neutral (env : Env) (w : World) :
  capability_calls (trace (snd (checkUsageLimit env w))) = capability_calls (trace w).
Proof.
  rewrite checkUsageLimit_run.
  destruct (is_premium (user (app w)));
    [|destruct (effective_count (today env) (gv_usage (localStorage w)) <? 3)%Z];
    proj_simpl; rewrite capability_calls_snoc; apply Nat.add_0_r.
Qed.

Lemma incrementUsage_neutral (env : Env) (w : World) :
  capability_calls (trace (snd (incrementUsage env w))) = capability_calls (trace w).
Proof.
  rewrite incrementUsage_run. destruct (is_premium (user (app w))); proj_simpl;
    [reflexivity|]. rewrite capability_calls_snoc. apply Nat.add_0_r.
Qed.

Lemma addToHistory_neutral (env : Env) (r : TranslationResult) (w : World) :
  capability_calls (trace (snd (addToHistory env r w))) = capability_calls (trace w).
Proof.
  destruct (addToHistory_cases env r w) as [E|(item & _ & _ & E)]; rewrite E;
    [reflexivity|]. cbv zeta. proj_simpl.
  rewrite capability_calls_snoc. apply Nat.add_0_r.
Qed.

Ltac calls_leaf :=
  apply neutral_triple;
  [ first [ apply checkUsageLimit_neutral | apply incrementUsage_neutral
          | apply addToHistory_neutral
          | intros; reflexivity
          | intros; unfold speakText, emit; proj_simpl;
            rewrite capability_calls_snoc; apply Nat.add_0_r ]
  | lia ].

Ltac calls_weaken :=
  let w := fresh "w" in let H := fresh "H" in
  intros w H; unfold calls_le in *; lia.

Ltac calls_step :=
  lazymatch goal with
  | |- triple (calls_le ?a) (bind (emit (CalledTranslateOffline _ _)) _) _ =>
    apply seq_bind with (R := calls_le (S a));
    [apply call_triple; exact I | calls_weaken | intro]
  | |- triple (calls_le ?a) (bind (emit (CalledTranslateAudio _ _ _ _)) _) _ =>
    apply seq_bind with (R := calls_le (S a));
    [apply call_triple; exact I | calls_weaken | intro]
  | |- triple (calls_le ?a) (bind (emit (CalledTranslateText _ _ _)) _) _ =>
    apply seq_bind with (R := calls_le (S a));
    [apply call_triple; exact I | calls_weaken | intro]
  | |- triple (calls_le ?a) (bind (emit (CalledTranslateImage _ _ _ _)) _) _ =>
    apply seq_bind with (R := calls_le (S a));
    [apply call_triple; exact I | calls_weaken | intro]
  | |- triple (calls_le ?a) (bind _ _) _ =>
    apply seq_bind with (R := calls_le a); [ | calls_weaken | intro]
  | |- triple _ (try_catch_finally _ _ _) _ => apply seq_tcf; [|intro|]
  | |- triple _ (prop _ _) _ => unfold prop
  | |- triple _ (if ?b then _ else _) _ => destruct b
  | |- triple _ (match ?x with Some _ => _ | None => _ end) _ => destruct x
  | |- _ => calls_leaf
  end.

(** X23. A request of any mode, whatever its outcome, makes at most one
    call to a translation capability, cloud or offline: nothing is called a
    second time after a failure. *)
Theorem at_most_one_capability_call (env : Env) (blob : Blob)
    (inputText base64Image mimeType : jsstring) (w : World) :
  capability_calls (trace (snd (processAudio env blob w)))
    <= S (capability_calls (trace w))
  /\ capability_calls (trace (snd (handleTextTranslate env inputText w)))
       <= S (capability_calls (trace w))
  /\ capability_calls (trace (snd (handleImageTranslate env base64Image mimeType w)))
       <= S (capability_calls (trace w)).
Proof.
  assert (R : calls_le (capability_calls (trace w)) w) by (unfold calls_le; lia).
  split; [|split].
  - apply (fun T : triple (calls_le (capability_calls (trace w))) (processAudio env blob)
                     (calls_le (S (capability_calls (trace w)))) => T w R).
    unfold processAudio. repeat calls_step.
  - apply (fun T : triple (calls_le (capability_calls (trace w)))
                     (handleTextTranslate env inputText)
                     (calls_le (S (capability_calls (trace w)))) => T w R).
    unfold handleTextTranslate. repeat calls_step.
  - apply (fun T : triple (calls_le (capability_calls (trace w)))
                     (handleImageTranslate env base64Image mimeType)
                     (calls_le (S (capability_calls (trace w)))) => T w R).
    unfold handleImageTranslate. repeat calls_step.
Qed.


(** X24. A premium user who is offline without the pack of the target
    language gets the pack message and no translation; once the pack is
    downloaded, which [handleDownloadPack] does without looking at
    connectivity, the same voice request calls the offline resolver, ends
    without error and adds an item to the history. *)
Theorem download_unlocks_offline (env : Env) (blob : Blob) (w : World) (u : User)
    (lm lt : LanguageOption) :
  motherLang (app w) = Some lm ->
  targetLang (app w) = Some lt ->
  user (app w) = Some u ->
  isOnline (app w) = false ->
  is_premium (Some u) = true ->
  is_downloaded (Some u) (targetLangCode (app w)) = false ->
  let before := snd (processAudio env blob w) in
  let w1 := snd (handleDownloadPack (targetLangCode (app w)) w) in
  let after := snd (processAudio env blob w1) in
  error (app before) = Some (MSG_VOICE_PACK (langName_of (targetLangCode (app w))))
  /\ translationResult (app before) = None
  /\ offline_calls (trace before) = offline_calls (trace w)
  /\ history (app before) = history (app w)
  /\ offline_calls (trace after) =
       offline_calls (trace w) ++ [(utf16 "Help me", targetLangCode (app w))]
  /\ error (app after) = None
  /\ (exists r, translationResult (app after) = Some r
                /\ hd_error (history (app after))
                   = Some (newItem_of lm lt (motherLangCode (app w)) env r)).
Proof.
  intros Hm Ht U Off P D before w1 after.
  assert (B : error (app before) = Some (MSG_VOICE_PACK (langName_of (targetLangCode (app w))))
              /\ translationResult (app before) = None
              /\ offline_calls (trace before) = offline_calls (trace w)
              /\ history (app before) = history (app w)).
  { subst before. unfold processAudio. unfold_M. proj_simpl.
    rewrite Off, U, P. proj_simpl. rewrite D. proj_simpl. repeat split. }
  destruct B as (B1 & B2 & B3 & B4).
  split; [exact B1|]. split; [exact B2|]. split; [exact B3|]. split; [exact B4|].
  subst after w1. rewrite (handleDownloadPack_run _ w U), D. cbn [snd].
  set (w1 := mkWorld _ _ _).
  assert (D1 : is_downloaded (user (app w1)) (targetLangCode (app w1)) = true).
  { subst w1. proj_simpl. cbn [is_downloaded downloadedLanguages].
    rewrite existsb_code_app.
    replace (code_eqb (targetLangCode (app w)) (targetLangCode (app w))) with true
      by (symmetry; now apply code_eqb_eq).
    apply orb_true_r. }
  assert (P1 : is_premium (user (app w1)) = true) by exact P.
  rewrite (processAudio_offline_run env blob w1 (lm:=lm) (lt:=lt) Hm Ht Off P1 D1).
  cbv zeta. subst w1. proj_simpl.
  split; [|split; [reflexivity|]].
  - rewrite !offline_calls_app. cbn [offline_calls flat_map app].
    destruct (mode_eqb (mode (app w)) voice_to_voice);
      cbn [flat_map app]; rewrite ?app_nil_r; reflexivity.
  - eexists. split; [reflexivity|]. reflexivity.
Qed.


(** *** Requests: what they do to the two stores *)

Lemma neutral_observes {A X : Type} (proj : World -> X) (p q : X -> Prop) (m : M A) :
  (forall w, proj (snd (m w)) = proj w) ->
  (forall x, p x -> q x) ->
  triple (observes proj p) m (observes proj q).
Proof.
  intros N W w H. unfold observes in *. rewrite N. now apply W.
Qed.

Lemma checkUsageLimit_stores (env : Env) (w : World) :
  history (app (snd (checkUsageLimit env w))) = history (app w)
  /\ localStorage (snd (checkUsageLimit env w)) = localStorage w.
Proof.
  rewrite checkUsageLimit_run.
  destruct (is_premium (user (app w)));
    [|destruct (effective_count (today env) (gv_usage (localStorage w)) <? 3)%Z];
    split; reflexivity.
Qed.

Lemma incrementUsage_history (env : Env) (w : World) :
  history (app (snd (incrementUsage env w))) = history (app w)
  /\ gv_history (localStorage (snd (incrementUsage env w))) = gv_history (localStorage w).
Proof.
  rewrite incrementUsage_run. destruct (is_premium (user (app w))); split; reflexivity.
Qed.

Lemma addToHistory_usage (env : Env) (r : TranslationResult) (w : World) :
  gv_usage (localStorage (snd (addToHistory env r w))) = gv_usage (localStorage w).
Proof.
  destruct (addToHistory_cases env r w) as [E|(item & _ & _ & E)]; rewrite E; reflexivity.
Qed.

(** The two readings of the history: in memory, and in memory together
    with the stored copy. *)
Ltac stores_leaf :=
  first
    [ apply neutral_observes;
      [ first [ intros; reflexivity
              | intros; unfold prop;
                match goal with
                | |- context [match ?x with Some _ => _ | None => _ end] => destruct x
                end; reflexivity
              | intros; apply checkUsageLimit_stores
              | intros; apply incrementUsage_history
              | intros; apply addToHistory_usage
              | let w := fresh "w" in let E := fresh "E" in
                intros w;
                match goal with |- ?p _ = _ => unfold p end;
                match goal with
                | |- context [checkUsageLimit ?e w] =>
                  destruct (checkUsageLimit_stores e w) as [_ E]; rewrite E
                end; reflexivity ]
      | solve [auto] ] ].

Ltac stores_step step :=
  lazymatch goal with
  | |- triple ?P (bind _ _) ?Q =>
    first [ apply seq_bind with (R := P);
            [solve [stores_leaf] | solve [unfold observes; auto] | intro]
          | apply seq_bind with (R := Q);
            [solve [step] | solve [unfold observes; auto] | intro] ]
  | |- triple _ (try_catch_finally _ _ _) _ => apply seq_tcf; [|intro|]
  | |- triple _ (prop _ _) _ => unfold prop
  | |- triple _ (if ?b then _ else _) _ => destruct b
  | |- triple _ (match ?x with Some _ => _ | None => _ end) _ => destruct x
  | |- _ => first [stores_leaf | step]
  end.

(** X25. Whatever its outcome, a request of any mode leaves the history as
    it was or puts exactly one new item at its front and cuts at 50: it
    never drops an item below the cap and never changes the order. *)
Theorem requests_append_at_most_once (env : Env) (blob : Blob)
    (inputText base64Image mimeType : jsstring) (w : World) :
  let next := fun h' =>
    h' = history (app w) \/ exists item, h' = firstn 50 (item :: history (app w)) in
  next (history (app (snd (processAudio env blob w))))
  /\ next (history (app (snd (handleTextTranslate env inputText w))))
  /\ next (history (app (snd (handleImageTranslate env base64Image mimeType w)))).
Proof.
  intros next.
  pose (proj := fun w' : World => history (app w')).
  assert (R : observes proj (eq (history (app w))) w) by reflexivity.
  assert (W : forall x, history (app w) = x -> next x) by (intros x <-; now left).
  assert (N : forall x, next x -> next x) by auto.
  assert (S : forall e r, triple (observes proj (eq (history (app w))))
                            (addToHistory e r) (observes proj next)).
  { intros e r w' H. unfold observes, proj in *.
    destruct (addToHistory_cases e r w') as [E|(item & _ & _ & E)]; rewrite E.
    - left. now symmetry.
    - right. exists item. cbv zeta. proj_simpl. now rewrite <- H. }
  split; [|split].
  - apply (fun T : triple (observes proj (eq (history (app w)))) (processAudio env blob)
                     (observes proj next) => T w R).
    unfold processAudio. repeat stores_step ltac:(apply S).
  - apply (fun T : triple (observes proj (eq (history (app w))))
                     (handleTextTranslate env inputText) (observes proj next) => T w R).
    unfold handleTextTranslate. repeat stores_step ltac:(apply S).
  - apply (fun T : triple (observes proj (eq (history (app w))))
                     (handleImageTranslate env base64Image mimeType)
                     (observes proj next) => T w R).
    unfold handleImageTranslate. repeat stores_step ltac:(apply S).
Qed.


(** X26. On a ledger whose count is below 2^53 in absolute value, a
    request of any mode, whatever its outcome, leaves the usage ledger as it
    was or records exactly one usage: the count of the stored ledger plus
    one under the date it had, or a ledger of today with count 1 when none
    was stored. *)
Theorem requests_record_at_most_once (env : Env) (blob : Blob)
    (inputText base64Image mimeType : jsstring) (w : World) :
  safe_count (gv_usage (localStorage w)) ->
  let next := fun u' =>
    u' = gv_usage (localStorage w) \/ u' = recorded env (gv_usage (localStorage w)) in
  next (gv_usage (localStorage (snd (processAudio env blob w))))
  /\ next (gv_usage (localStorage (snd (handleTextTranslate env inputText w))))
  /\ next (gv_usage (localStorage (snd (handleImageTranslate env base64Image mimeType w)))).
Proof.
  intros _ next.
  pose (proj := fun w' : World => gv_usage (localStorage w')).
  assert (R : observes proj (eq (gv_usage (localStorage w))) w) by reflexivity.
  assert (W : forall x, gv_usage (localStorage w) = x -> next x) by (intros x <-; now left).
  assert (N : forall x, next x -> next x) by auto.
  assert (S : triple (observes proj (eq (gv_usage (localStorage w))))
                     (incrementUsage env) (observes proj next)).
  { intros w' H. unfold observes, proj in *. rewrite incrementUsage_run.
    destruct (is_premium (user (app w'))).
    - left. now symmetry.
    - right. proj_simpl. unfold recorded. now rewrite <- H. }
  split; [|split].
  - apply (fun T : triple (observes proj (eq (gv_usage (localStorage w))))
                     (processAudio env blob) (observes proj next) => T w R).
    unfold processAudio. repeat stores_step ltac:(exact S).
  - apply (fun T : triple (observes proj (eq (gv_usage (localStorage w))))
                     (handleTextTranslate env inputText) (observes proj next) => T w R).
    unfold handleTextTranslate. repeat stores_step ltac:(exact S).
  - apply (fun T : triple (observes proj (eq (gv_usage (localStorage w))))
                     (handleImageTranslate env base64Image mimeType)
                     (observes proj next) => T w R).
    unfold handleImageTranslate. repeat stores_step ltac:(exact S).
Qed.


(** *** Requests: failures of the cloud path *)

(** X27. When the cloud call of an online request throws a value [e] that
    has a [message], the request shows the message [parseErrorMessage]
    computes for [e], shows no result and ends with the loading flag down,
    in each of the three modes. *)
Theorem cloud_failure_surfaced (env : Env) (blob : Blob)
    (inputText base64Image mimeType : jsstring) (w : World) (lm lt : LanguageOption) :
  motherLang (app w) = Some lm ->
  targetLang (app w) = Some lt ->
  isOnline (app w) = true ->
  fst (checkUsageLimit env w) = Normal true ->
  let failed := fun (e : JSError) (w' : World) =>
    error (app w') = Some (parseErrorMessage env e)
    /\ translationResult (app w') = None
    /\ isLoading (app w') = false in
  (forall base64Audio e,
     blobToBase64 env blob = Normal base64Audio ->
     translateAudio env base64Audio (name lt) (name lm) (blob_type blob) = Throw e ->
     has_message e ->
     failed e (snd (processAudio env blob w)))
  /\ (forall e,
        translateText env inputText (name lt) (name lm) = Throw e ->
        has_message e ->
        failed e (snd (handleTextTranslate env inputText w)))
  /\ (forall e,
        translateImage env base64Image (name lt) (name lm) mimeType = Throw e ->
        has_message e ->
        failed e (snd (handleImageTranslate env base64Image mimeType w))).
Proof.
  intros Hm Ht On Q failed. rewrite checkUsageLimit_run in Q.
  unfold motherLang, targetLang in Hm, Ht. subst failed.
  split; [|split].
  - intros b64 e B T _. unfold processAudio. unfold_M. proj_simpl. rewrite On. proj_simpl.
    unfold try_catch_finally, prop. unfold_M. rewrite B.
    unfold motherLang, targetLang. proj_simpl. rewrite Hm, Ht, T. repeat split.
  - intros e T _. unfold handleTextTranslate. unfold_M. rewrite checkUsageLimit_run.
    destruct (is_premium (user (app w)));
      [|destruct (effective_count (today env) (gv_usage (localStorage w)) <? 3)%Z;
        [|discriminate Q]];
      proj_simpl; rewrite On; proj_simpl;
      unfold try_catch_finally, prop; unfold_M;
      unfold motherLang, targetLang; proj_simpl; rewrite Hm, Ht, T; repeat split.
  - intros e T _. unfold handleImageTranslate. unfold_M. proj_simpl. rewrite On. proj_simpl.
    rewrite checkUsageLimit_run.
    destruct (is_premium (user (app w)));
      [|destruct (effective_count (today env) (gv_usage (localStorage w)) <? 3)%Z;
        [|discriminate Q]];
      proj_simpl;
      unfold try_catch_finally, prop; unfold_M;
      unfold motherLang, targetLang; proj_simpl; rewrite Hm, Ht, T; repeat split.
Qed.

(** X28. When the target language is not in the language table, an online
    text or image request that got past the quota check throws while it
    reads the language's name: no capability is called, nothing is written,
    and the message shown is the one computed for that [TypeError]. *)
Theorem missing_language_no_call (env : Env) (inputText base64Image mimeType : jsstring)
    (w : World) :
  targetLang (app w) = None ->
  isOnline (app w) = true ->
  fst (checkUsageLimit env w) = Normal true ->
  let stopped := fun (w' : World) =>
    trace w' = trace w ++ [QuotaChecked]
    /\ error (app w') = Some (parseErrorMessage env TypeError_undefined)
    /\ localStorage w' = localStorage w
    /\ history (app w') = history (app w) in
  stopped (snd (handleTextTranslate env inputText w))
  /\ stopped (snd (handleImageTranslate env base64Image mimeType w)).
Proof.
  intros Ht On Q stopped. rewrite checkUsageLimit_run in Q.
  unfold targetLang in Ht. subst stopped.
  split.
  - unfold handleTextTranslate. unfold_M. rewrite checkUsageLimit_run.
    destruct (is_premium (user (app w)));
      [|destruct (effective_count (today env) (gv_usage (localStorage w)) <? 3)%Z;
        [|discriminate Q]];
      proj_simpl; rewrite On; proj_simpl;
      unfold try_catch_finally, prop; unfold_M;
      unfold targetLang; proj_simpl; rewrite Ht; repeat split.
  - unfold handleImageTranslate. unfold_M. proj_simpl. rewrite On. proj_simpl.
    rewrite checkUsageLimit_run.
    destruct (is_premium (user (app w)));
      [|destruct (effective_count (today env) (gv_usage (localStorage w)) <? 3)%Z;
        [|discriminate Q]];
      proj_simpl;
      unfold try_catch_finally, prop; unfold_M;
      unfold targetLang; proj_simpl; rewrite Ht; repeat split.
Qed.

End IVoice.

(** ** The properties on the sample data *)

(** Three cloud requests of one day, one of each mode, use up the quota of
    a non-premium user: the check of the fourth request blocks it, and the
    check of the next day allows again. *)
Example quota_shared_by_modes :
  let run := fun (m : M unit) (w : World) => snd (m w) in
  let env := env_ok "2024-05-02" 7 (sample_result "en") in
  let w0 := sample_world (sample_user false []) true voice_to_voice Code_en Code_id None in
  let w1 := run (processAudio ascii_toLowerCase sample_languages sample_TypeError
                              env sample_blob) w0 in
  let w2 := run (handleTextTranslate ascii_toLowerCase sample_languages sample_TypeError
                                     env (utf16 "good night")) w1 in
  let w3 := run (handleImageTranslate sample_languages sample_TypeError
                                      env (utf16 "AAAA") (utf16 "image/png")) w2 in
  let w4 := run (handleTextTranslate ascii_toLowerCase sample_languages sample_TypeError
                                     env (utf16 "good night")) w3 in
  gv_usage (localStorage w3) = Some (mkUsage (utf16 "2024-05-02") 3)
  /\ fst (checkUsageLimit env w3) = Normal false
  /\ showPremiumModal (app w4) = true
  /\ List.length (filter is_cloud_call (trace w4)) = 3
  /\ localStorage w4 = localStorage w3
  /\ history (app w4) = history (app w3)
  /\ fst (checkUsageLimit (env_ok "2024-05-03" 8 (sample_result "en")) w3) = Normal true.
Proof. vm_compute. repeat split. Qed.

Lemma sample_uuids_NoDup : NoDup (map (fun er => randomUUID (fst er)) sample_51).
Proof.
  unfold sample_51. rewrite map_map. cbn [fst randomUUID env_ok].
  apply Injective_map_NoDup; [|apply seq_NoDup].
  intros i j E. injection E as E. now apply Nat2N.inj.
Qed.

Lemma addToHistory_capped_witness :
  let w := sample_world (sample_user false []) true text_to_text Code_en Code_id None in
  let wn := snd (append_all sample_languages sample_TypeError sample_51 w) in
  List.length (history (app wn)) = 50
  /\ map (fun i => id i) (history (app wn))
     = rev (map (fun er => randomUUID (fst er)) (skipn 1 sample_51))
  /\ (forall first, hd_error sample_51 = Some first ->
      ~ In (newItem_of lang_en lang_id Code_en (fst first) (snd first)) (history (app wn)))
  /\ last (map (fun i => id i) (history (app wn))) [] = [1%N].
Proof.
  intros w wn.
  destruct (addToHistory_capped sample_languages sample_TypeError
              (env_ok "2024-05-02" 99 (sample_result "en")) (sample_result "en")
              sample_51 w (lm:=lang_en) (lt:=lang_id) eq_refl eq_refl)
    as (_ & _ & _ & _ & _ & _ & H51).
  destruct (H51 eq_refl eq_refl) as (Hh & Hl & Hf & _).
  split; [exact Hl|].
  assert (E : map (fun i => id i) (history (app wn))
              = rev (map (fun er => randomUUID (fst er)) (skipn 1 sample_51))).
  { subst wn. rewrite Hh, map_rev, map_map. reflexivity. }
  split; [exact E|].
  split; [exact (Hf sample_uuids_NoDup)|].
  rewrite E. vm_compute. reflexivity.
Defined.

Lemma handleImageTranslate_offline_witness :
  let w := sample_world (sample_user true [Code_id]) false image_to_text Code_en Code_id
                        (Some (mkUsage (utf16 "2024-05-02") 1)) in
  let env := env_ok "2024-05-02" 7 (sample_result "en") in
  let w' := snd (handleImageTranslate sample_languages sample_TypeError env
                   (utf16 "AAAA") (utf16 "image/png") w) in
  error (app w') = Some MSG_IMAGE_OFFLINE /\ trace w' = [] /\ localStorage w' = localStorage w.
Proof.
  intros w env w'.
  destruct (handleImageTranslate_offline sample_languages sample_TypeError env
              (utf16 "AAAA") (utf16 "image/png") w eq_refl)
    as (_ & C & T & S & _).
  split; [exact C|]. split; [exact T|exact S].
Defined.

(** An offline text submission of a non-premium user whose ledger of the
    day is at 3 is stopped by the quota check: the premium dialog is opened
    and no entitlement message is set. *)
Lemma offline_text_stopped_by_quota :
  let w := sample_world (sample_user false []) false text_to_text Code_en Code_id
                        (Some (mkUsage (utf16 "2024-05-02") 3)) in
  let env := env_ok "2024-05-02" 7 (sample_result "en") in
  let wt := snd (handleTextTranslate ascii_toLowerCase sample_languages sample_TypeError
                   env (utf16 "hello") w) in
  isOnline (app w) = false
  /\ is_premium (user (app w)) = false
  /\ ~ EntitlementRequired sample_languages wt
  /\ error (app wt) = None
  /\ showPremiumModal (app wt) = true.
Proof.
  vm_compute. repeat split.
  intros [H|[H|[H|H]]]; discriminate H.
Qed.

Lemma offline_without_entitlement_witness :
  let w := sample_world (sample_user true [Code_id]) false text_to_text Code_en Code_ja None in
  let env := env_ok "2024-05-02" 7 (sample_result "en") in
  let wv := snd (processAudio ascii_toLowerCase sample_languages sample_TypeError
                   env sample_blob w) in
  let wt := snd (handleTextTranslate ascii_toLowerCase sample_languages sample_TypeError
                   env (utf16 "hello") w) in
  EntitlementRequired sample_languages wv
  /\ EntitlementRequired sample_languages wt
  /\ offline_calls (trace wt) = []
  /\ localStorage wt = localStorage w.
Proof.
  intros w env wv wt.
  destruct (offline_without_entitlement ascii_toLowerCase sample_languages sample_TypeError
              env sample_blob (utf16 "hello") w eq_refl eq_refl)
    as ((V & _) & (_ & O & S & _) & T & _).
  split; [exact V|]. split; [exact (T eq_refl)|]. split; [exact O|exact S].
Defined.




(** An offline voice request of a premium user whose mother language is
    Indonesian and whose target language is Japanese: the detected language
    of the result is [en], not the mother-language code, and the translation
    is spoken with the Japanese locale of the target language, not with the
    Indonesian one of the mother language. *)
Lemma offline_voice_speaks_target :
  let w := sample_world (sample_user true [Code_ja]) false voice_to_voice Code_id Code_ja None in
  let env := env_ok "2024-05-02" 7 (sample_result "en") in
  let wv := snd (processAudio ascii_toLowerCase sample_languages sample_TypeError
                   env sample_blob w) in
  option_map detected_language (translationResult (app wv)) = Some (utf16 "en")
  /\ utf16 "en" <> code_str (motherLangCode (app w))
  /\ error (app wv) = None
  /\ option_map ttsLocale (motherLang sample_languages (app w)) = Some (utf16 "id-ID")
  /\ option_map ttsLocale (targetLang sample_languages (app w)) = Some (utf16 "ja-JP")
  /\ spoken (trace wv) = [(utf16 "助けて", utf16 "ja-JP")]
  /\ spoken (trace wv) <> [(utf16 "助けて", utf16 "id-ID")].
Proof.
  vm_compute. repeat split; discriminate.
Qed.

Lemma voice_playback_witness :
  let r := sample_result "id" in
  let env := env_ok "2024-05-02" 7 r in
  let w := sample_world (sample_user false []) true voice_to_voice Code_id Code_ja None in
  let w' := sample_world (sample_user true [Code_ja]) false voice_to_voice Code_id Code_ja None in
  spoken (trace (snd (processAudio ascii_toLowerCase sample_languages sample_TypeError
                        env sample_blob w)))
    = [(translated_text r, utf16 "ja-JP")]
  /\ exists r',
       translationResult (app (snd (processAudio ascii_toLowerCase sample_languages
                                       sample_TypeError env sample_blob w'))) = Some r'
       /\ spoken (trace (snd (processAudio ascii_toLowerCase sample_languages
                                 sample_TypeError env sample_blob w')))
          = [(translated_text r', utf16 "ja-JP")].
Proof.
  intros r env w w'. split.
  - destruct (voice_playback ascii_toLowerCase sample_languages sample_TypeError
                env sample_blob w (lm:=lang_id) (lt:=lang_ja)
                eq_refl eq_refl) as (C & _).
    destruct (C (utf16 "AAAA") r eq_refl eq_refl eq_refl) as (_ & S). exact S.
  - destruct (voice_playback ascii_toLowerCase sample_languages sample_TypeError
                env sample_blob w' (lm:=lang_id) (lt:=lang_ja)
                eq_refl eq_refl) as (_ & O).
    destruct (O eq_refl eq_refl eq_refl) as (r' & T & _ & S).
    exists r'. split; [exact T|exact S].
Defined.

(** An offline voice request of a premium user with the Korean pack: the
    dictionary has no Korean entry for [help me], and the translation shown
    is the marker around [Help me]. *)
Lemma offline_voice_without_entry :
  let w := sample_world (sample_user true [Code_ko]) false voice_to_voice Code_en Code_ko None in
  let env := env_ok "2024-05-02" 7 (sample_result "en") in
  let p := processAudio ascii_toLowerCase sample_languages sample_TypeError
             env sample_blob w in
  fst p = Normal tt
  /\ error (app (snd p)) = None
  /\ List.length (history (app (snd p))) = 1
  /\ lookup (code_str Code_ko) help_me_entry = None
  /\ option_map translated_text (translationResult (app (snd p)))
     = Some (utf16 "[Offline: Help me]").
Proof.
  vm_compute. repeat split.
Qed.

Lemma offline_voice_fixed_phrase_witness :
  let w := sample_world (sample_user true [Code_ja]) false voice_to_voice Code_en Code_ja None in
  let env := env_ok "2024-05-02" 7 (sample_result "en") in
  let wv := snd (processAudio ascii_toLowerCase sample_languages sample_TypeError
                   env sample_blob w) in
  offline_calls (trace wv) = [(utf16 "Help me", Code_ja)]
  /\ processAudio ascii_toLowerCase sample_languages sample_TypeError env
       (mkBlob [] (utf16 "audio/ogg")) w
     = processAudio ascii_toLowerCase sample_languages sample_TypeError env sample_blob w
  /\ option_map translated_text (translationResult (app wv)) = Some (utf16 "助けて").
Proof.
  intros w env wv.
  destruct (offline_voice_fixed_phrase ascii_toLowerCase (fun s _ => eq_refl)
              sample_languages sample_TypeError env sample_blob
              (mkBlob [] (utf16 "audio/ogg")) w (lm:=lang_en) (lt:=lang_ja)
              eq_refl eq_refl eq_refl eq_refl eq_refl)
    as (_ & O & B & _ & (r & T & _ & X) & _).
  split; [exact O|]. split; [exact B|].
  subst wv. rewrite T. cbn [option_map]. rewrite X. vm_compute. reflexivity.
Defined.

(** ** The further properties on the sample data *)

Lemma cloud_call_failure_classified_witness :
  handleGenAIError (new_Error LIMIT_REACHED) = new_Error LIMIT_REACHED.
Proof.
  apply (@cloud_call_failure_classified
           (env_failing "2024-05-02" "429 Too Many Requests")
           (TextRequest (utf16 "good night") (utf16 "English") (utf16 "Indonesian"))
           (new_Error LIMIT_REACHED)).
  vm_compute. reflexivity.
Defined.

Lemma cloud_call_empty_response_witness :
  let env := mkEnv (utf16 "2024-05-02") true (utf16 "uuid-0") 0
                   (fun _ => Normal (Some []))
                   (fun _ => Normal (sample_result "en"))
                   (fun _ => Normal (utf16 "AAAA")) in
  cloud_call env (TextRequest (utf16 "good night") (utf16 "English") (utf16 "Indonesian"))
    = Throw (new_Error EMPTY_RESPONSE)
  /\ parseErrorMessage env (new_Error EMPTY_RESPONSE) = EMPTY_RESPONSE.
Proof.
  intros env.
  destruct (@cloud_call_empty_response env
              (TextRequest (utf16 "good night") (utf16 "English") (utf16 "Indonesian"))
              (Some []) eq_refl eq_refl) as [A B].
  split; [exact A|exact (B eq_refl)].
Defined.

Lemma translateOffline_without_language_witness :
  exists r, translateOffline ascii_toLowerCase sample_TypeError (utf16 "Thank you!") Code_nl
              = Normal r
            /\ translated_text r = utf16 "[Offline: Thank you!]".
Proof.
  destruct (@translateOffline_without_language ascii_toLowerCase sample_TypeError
              (utf16 "Thank you!") Code_nl) as (r & E & T).
  - cbn. tauto.
  - exists r. split; [exact E|]. rewrite T. vm_compute. reflexivity.
Defined.

Lemma translateOffline_marker_iff_witness :
  resolve_spec ascii_toLowerCase (utf16 "Good evening") Code_es
    = offline_marker (utf16 "Good evening")
  /\ resolve_spec ascii_toLowerCase (utf16 "Some WATER, please.") Code_es
     <> offline_marker (utf16 "Some WATER, please.").
Proof.
  split.
  - destruct (@translateOffline_marker_iff ascii_toLowerCase (utf16 "Good evening") Code_es)
      as [A _]; [cbn; tauto|].
    apply A. intros k I. cbn in I.
    repeat (destruct I as [<-|I]; [vm_compute; reflexivity|]). contradiction.
  - destruct (@translateOffline_marker_iff ascii_toLowerCase
                (utf16 "Some WATER, please.") Code_es) as [_ B]; [cbn; tauto|].
    destruct B as (k & e & _ & _ & _ & N); [|exact N].
    exists (utf16 "water"). split; [cbn; tauto|vm_compute; reflexivity].
Defined.

Lemma dictionary_phrases_resolve_witness :
  resolve_spec ascii_toLowerCase (utf16 "i am lost") Code_ja = utf16 "迷いました"
  /\ resolve_spec ascii_toLowerCase (utf16 "i am lost") Code_en = utf16 "i am lost".
Proof.
  destruct (@dictionary_phrases_resolve ascii_toLowerCase (fun s _ => eq_refl)
              (utf16 "i am lost")
              [(utf16 "id", utf16 "saya tersesat"); (utf16 "es", utf16 "estoy perdido");
               (utf16 "ja", utf16 "迷いました"); (utf16 "zh", utf16 "我迷路了");
               (utf16 "en", utf16 "i am lost")]
              Code_ja) as (_ & A & B).
  - cbn. tauto.
  - split; [rewrite A; vm_compute; reflexivity|exact B].
Defined.

Lemma deleteHistoryItem_removes_witness :
  let w := sample_world (sample_user false []) true text_to_text Code_en Code_id None in
  let w2 := snd (append_all sample_languages sample_TypeError (firstn 3 sample_51) w) in
  map (fun i => id i) (history (app w2)) = [[2%N]; [1%N]; [0%N]]
  /\ map (fun i => id i) (history (app (snd (deleteHistoryItem [1%N] w2)))) = [[2%N]; [0%N]]
  /\ history (app (snd (deleteHistoryItem [7%N] w2))) = history (app w2).
Proof.
  intros w w2.
  split; [vm_compute; reflexivity|]. split; [vm_compute; reflexivity|].
  destruct (@deleteHistoryItem_removes [7%N] w2) as (_ & _ & A & _).
  apply A. intros i I. vm_compute in I.
  repeat (destruct I as [<-|I]; [vm_compute; discriminate|]). contradiction.
Defined.

Lemma append_then_delete_witness :
  let w := sample_world (sample_user false []) true text_to_text Code_en Code_id None in
  let w2 := snd (append_all sample_languages sample_TypeError (firstn 3 sample_51) w) in
  let env := env_ok "2024-05-02" 9 (sample_result "en") in
  history (app (snd (deleteHistoryItem (randomUUID env)
                       (snd (addToHistory sample_languages sample_TypeError env
                               (sample_result "en") w2)))))
    = history (app w2).
Proof.
  intros w w2 env.
  destruct (@append_then_delete sample_languages sample_TypeError env (sample_result "en")
              w2 lang_en lang_id eq_refl eq_refl) as (_ & A & _).
  - intros i I. vm_compute in I.
    repeat (destruct I as [<-|I]; [vm_compute; discriminate|]). contradiction.
  - apply A. vm_compute. lia.
Defined.

Lemma history_ops_keep_invariant_witness :
  let w := sample_world (sample_user false []) true text_to_text Code_en Code_id None in
  let ops := map (fun er => OpAppend (fst er) (snd er)) sample_51
             ++ [OpDelete [50%N]; OpAppend (env_ok "2024-05-02" 77 (sample_result "en"))
                                           (sample_result "en")] in
  history_invariant (run_ops sample_languages sample_TypeError ops w)
  /\ List.length (history (app (run_ops sample_languages sample_TypeError ops w))) = 50.
Proof.
  intros w ops.
  destruct (@history_ops_keep_invariant sample_languages sample_TypeError ops w) as [A _].
  split; [|vm_compute; reflexivity].
  apply A. split; [cbn; lia|reflexivity].
Defined.

Lemma detectLanguage_pair_witness :
  let w := sample_world (sample_user false []) true voice_to_voice Code_en Code_id None in
  let w1 := snd (detectLanguage sample_languages (utf16 "id-ID") w) in
  let w2 := snd (detectLanguage sample_languages (utf16 "ja") w) in
  let w3 := snd (detectLanguage sample_languages (utf16 "fr-FR") w) in
  (motherLangCode (app w1), targetLangCode (app w1)) = (Code_id, Code_en)
  /\ (motherLangCode (app w2), targetLangCode (app w2)) = (Code_ja, Code_id)
  /\ w3 = w.
Proof.
  intros w w1 w2 w3.
  destruct (@detectLanguage_pair sample_languages (utf16 "id-ID") w eq_refl eq_refl)
    as (_ & A & _).
  destruct (A lang_id eq_refl) as (A1 & _ & A2).
  destruct (@detectLanguage_pair sample_languages (utf16 "ja") w eq_refl eq_refl)
    as (_ & B & _).
  destruct (B lang_ja eq_refl) as (B1 & _ & B2).
  destruct (@detectLanguage_pair sample_languages (utf16 "fr-FR") w eq_refl eq_refl)
    as (_ & _ & C & _).
  split; [|split; [|exact (C eq_refl)]].
  - subst w1. rewrite A1, A2. reflexivity.
  - subst w2. rewrite B1, B2. reflexivity.
Defined.

Lemma handleDownloadPack_adds_witness :
  let w := sample_world (sample_user true [Code_id]) false voice_to_voice Code_en Code_ja None in
  let w' := snd (handleDownloadPack Code_ja w) in
  is_downloaded (user (app w')) Code_ja = true
  /\ is_downloaded (user (app w')) Code_ko = false
  /\ snd (handleDownloadPack Code_ja w') = w'.
Proof.
  intros w w'.
  destruct (@handleDownloadPack_adds Code_ja w) as (_ & A & B & _ & _ & _ & C).
  split; [apply A; discriminate|]. split; [|exact C].
  subst w'. rewrite B by discriminate. reflexivity.
Defined.

Lemma premium_never_charged_witness :
  let w := sample_world (sample_user true []) true voice_to_voice Code_en Code_id
                        (Some (mkUsage (utf16 "2024-05-02") 3)) in
  let env := env_ok "2024-05-02" 7 (sample_result "en") in
  gv_usage (localStorage (snd (handleTextTranslate ascii_toLowerCase sample_languages
                                 sample_TypeError env (utf16 "good night") w)))
    = Some (mkUsage (utf16 "2024-05-02") 3).
Proof.
  intros w env.
  destruct (@premium_never_charged ascii_toLowerCase sample_languages sample_TypeError env
              sample_blob (utf16 "good night") (utf16 "AAAA") (utf16 "image/png") w eq_refl)
    as (_ & (A & _) & _).
  exact A.
Defined.



Lemma blocked_by_quota_witness :
  let w := sample_world (sample_user false []) true text_to_text Code_en Code_id
                        (Some (mkUsage (utf16 "2024-05-02") 3)) in
  let env := env_ok "2024-05-02" 7 (sample_result "en") in
  trace (snd (handleTextTranslate ascii_toLowerCase sample_languages sample_TypeError
                env (utf16 "good night") w)) = [QuotaChecked]
  /\ trace (snd (handleImageTranslate sample_languages sample_TypeError
                   env (utf16 "AAAA") (utf16 "image/png") w)) = [QuotaChecked].
Proof.
  intros w env.
  destruct (@blocked_by_quota ascii_toLowerCase sample_languages sample_TypeError env
              (utf16 "good night") (utf16 "AAAA") (utf16 "image/png") w eq_refl)
    as (A & B).
  - vm_compute. discriminate.
  - rewrite A, (B eq_refl). split; reflexivity.
Defined.

Lemma handleTextTranslate_offline_success_witness :
  let w := sample_world (sample_user true [Code_ja]) false text_to_text Code_en Code_ja None in
  let env := env_ok "2024-05-02" 7 (sample_result "en") in
  let w' := snd (handleTextTranslate ascii_toLowerCase sample_languages
                   sample_TypeError env (utf16 "How much?") w) in
  option_map translated_text (translationResult (app w')) = Some (utf16 "いくらですか")
  /\ gv_usage (localStorage w') = None
  /\ List.length (history (app w')) = 1.
Proof.
  intros w env w'. subst w'.
  rewrite (@handleTextTranslate_offline_success ascii_toLowerCase sample_languages
             sample_TypeError env (utf16 "How much?") w lang_en lang_ja
             eq_refl eq_refl eq_refl eq_refl eq_refl).
  vm_compute. repeat split.
Defined.


Lemma download_unlocks_offline_witness :
  let u := sample_user true [Code_id] in
  let w := sample_world u false voice_to_voice Code_en Code_ja None in
  let env := env_ok "2024-05-02" 7 (sample_result "en") in
  let w1 := snd (handleDownloadPack Code_ja w) in
  offline_calls (trace (snd (processAudio ascii_toLowerCase sample_languages
                               sample_TypeError env sample_blob w))) = []
  /\ offline_calls (trace (snd (processAudio ascii_toLowerCase sample_languages
                                  sample_TypeError env sample_blob w1)))
     = [(utf16 "Help me", Code_ja)].
Proof.
  intros u w env w1.
  destruct (@download_unlocks_offline ascii_toLowerCase sample_languages sample_TypeError
              env sample_blob w u lang_en lang_ja
              eq_refl eq_refl eq_refl eq_refl eq_refl eq_refl)
    as (_ & _ & A & _ & B & _).
  split; [exact A|exact B].
Defined.

Lemma cloud_failure_surfaced_witness :
  let w := sample_world (sample_user false []) true text_to_text Code_en Code_id None in
  let env := env_failing "2024-05-02" "blocked: finishReason SAFETY" in
  error (app (snd (handleTextTranslate ascii_toLowerCase sample_languages sample_TypeError
                     env (utf16 "good night") w))) = Some MSG_SAFETY.
Proof.
  intros w env.
  destruct (@cloud_failure_surfaced ascii_toLowerCase sample_languages sample_TypeError env
              sample_blob (utf16 "good night") (utf16 "AAAA") (utf16 "image/png") w
              lang_en lang_id eq_refl eq_refl eq_refl eq_refl) as (_ & T & _).
  destruct (T (new_Error SAFETY_BLOCK)) as (E & _);
    [vm_compute; reflexivity|discriminate|].
  rewrite E. vm_compute. reflexivity.
Defined.

Lemma missing_language_no_call_witness :
  let w := sample_world (sample_user false []) true text_to_text Code_en Code_ar None in
  let env := env_ok "2024-05-02" 7 (sample_result "en") in
  trace (snd (handleTextTranslate ascii_toLowerCase sample_languages sample_TypeError
                env (utf16 "good night") w)) = [QuotaChecked]
  /\ history (app (snd (handleImageTranslate sample_languages sample_TypeError
                          env (utf16 "AAAA") (utf16 "image/png") w))) = [].
Proof.
  intros w env.
  destruct (@missing_language_no_call ascii_toLowerCase sample_languages sample_TypeError
              env (utf16 "good night") (utf16 "AAAA") (utf16 "image/png") w
              eq_refl eq_refl eq_refl) as ((A & _) & (_ & _ & _ & B)).
  split; [exact A|exact B].
Defined.


Lemma requests_record_at_most_once_witness :
  let w := sample_world (sample_user false []) true text_to_text Code_en Code_id
                        (Some (mkUsage (utf16 "2024-05-02") 1)) in
  let r := sample_result "en" in
  gv_usage (localStorage (snd (handleTextTranslate ascii_toLowerCase sample_languages
                                 sample_TypeError (env_ok "2024-05-02" 7 r)
                                 (utf16 "good night") w)))
    = Some (mkUsage (utf16 "2024-05-02") 2)
  /\ gv_usage (localStorage (snd (handleTextTranslate ascii_toLowerCase sample_languages
                                    sample_TypeError (env_failing "2024-05-02" "fetch failed")
                                    (utf16 "good night") w)))
     = Some (mkUsage (utf16 "2024-05-02") 1).
Proof.
  intros w r.
  assert (S : safe_count (gv_usage (localStorage w))).
  { intros u E. injection E as <-. cbn [count]. lia. }
  destruct (@requests_record_at_most_once ascii_toLowerCase sample_languages
              sample_TypeError (env_ok "2024-05-02" 7 r) sample_blob (utf16 "good night")
              (utf16 "AAAA") (utf16 "image/png") w S) as (_ & [A|A] & _);
    [vm_compute in A; discriminate A|].
  destruct (@requests_record_at_most_once ascii_toLowerCase sample_languages
              sample_TypeError (env_failing "2024-05-02" "fetch failed") sample_blob
              (utf16 "good night") (utf16 "AAAA") (utf16 "image/png") w S)
    as (_ & [B|B] & _); [|vm_compute in B; discriminate B].
  split; [rewrite A|rewrite B]; vm_compute; reflexivity.
Defined.

(** C1. Each check is as stated: it allows a non-premium request exactly
    when the effective persisted count is below 3, always allows a premium
    one, and leaves [localStorage] as it was.  The fourth cloud request of
    a day is not always blocked, though: with the ledger of 2024-05-01 at
    count 3, four text requests of a non-premium user on 2024-05-02 all
    reach the cloud capability and the premium dialog is never opened.
    Recording keeps the date of the earlier day (count 7 under 2024-05-01),
    so every check of the day sees a count of 0, and the check after the
    fourth request still allows. *)
Theorem stale_ledger_fourth_request_allowed :
  (forall (env : Env) (w : World),
     fst (checkUsageLimit env w) =
       Normal (if is_premium (user (app w)) then true
               else (effective_count (today env) (gv_usage (localStorage w)) <? 3)%Z)
     /\ localStorage (snd (checkUsageLimit env w)) = localStorage w)
  /\ (let env := env_ok "2024-05-02" 7 (sample_result "en") in
      let w0 := sample_world (sample_user false []) true text_to_text Code_en Code_id
                             (Some (mkUsage (utf16 "2024-05-01") 3)) in
      let request := fun w =>
        snd (handleTextTranslate ascii_toLowerCase sample_languages sample_TypeError
               env (utf16 "good night") w) in
      let w3 := request (request (request w0)) in
      let w4 := request w3 in
      is_premium (user (app w0)) = false
      /\ fst (checkUsageLimit env w3) = Normal true
      /\ List.length (filter is_cloud_call (trace w3)) = 3
      /\ List.length (filter is_cloud_call (trace w4)) = 4
      /\ List.length (history (app w4)) = 4
      /\ showPremiumModal (app w4) = false
      /\ error (app w4) = None
      /\ gv_usage (localStorage w4) = Some (mkUsage (utf16 "2024-05-01") 7)
      /\ effective_count (today env) (gv_usage (localStorage w4)) = 0%Z
      /\ fst (checkUsageLimit env w4) = Normal true).
Proof.
  split.
  - intros env w. destruct (checkUsageLimit_quota env w) as (A & B & _).
    split; [exact A|exact B].
  - vm_compute. repeat split.
Qed.
